(** * refrugee_management: the game and item-catalogue REST back end

    A shallow embedding of the Django REST views and serializers of the
    [game] and [items] applications.  The relational store is a record of
    tables; a view is a function from the request and the store to a
    response and the store after the request. *)

From Stdlib Require Import ZArith QArith Bool List Ascii String Lia.
From stdpp Require Import gmap strings list fin_maps.

Close Scope Q_scope.
Set Warnings "-register-all".
Local Open Scope string_scope.
Local Open Scope Z_scope.

(** ** Python values carried by request bodies and JSON columns *)

Module Py.

(** A parsed JSON document as Python sees it.  [PNone] is both JSON
    [null] and the result of [dict.get] on a missing key.  A float is
    kept as the rational it denotes (a strict JSON body has no NaN and
    no infinity). *)
Inductive value : Type :=
| PNone
| PBool (b : bool)
| PInt (z : Z)
| PFloat (q : Q)
| PStr (s : string)
| PList (l : list value)
| PDict (kv : list (string * value)).

Definition Qeqb0 (q : Q) : bool := Qnum q =? 0.

(** Truth value of an object, as tested by [if x] and [not x]. *)
Definition truthy (v : value) : bool :=
  match v with
  | PNone => false
  | PBool b => b
  | PInt z => negb (z =? 0)
  | PFloat q => negb (Qeqb0 q)
  | PStr s => negb (String.eqb s "")
  | PList l => match l with [] => false | _ => true end
  | PDict kv => match kv with [] => false | _ => true end
  end.

(** [isinstance(v, dict)] *)
Definition is_dict (v : value) : bool :=
  match v with PDict _ => true | _ => false end.

(** [isinstance(v, (int, float))]: [bool] is a subclass of [int]. *)
Definition is_int_or_float (v : value) : bool :=
  match v with
  | PBool _ | PInt _ | PFloat _ => true
  | _ => false
  end.

(** [x in l] on a list of strings. *)
Definition mem (x : string) (l : list string) : bool :=
  existsb (String.eqb x) l.

(** [a < b] on floats. *)
Definition Qltb (a b : Q) : bool := negb (Qle_bool b a).

(** The text of a query parameter, by what [int] makes of it: the text
    of an integer (with the sign and the blanks [int] allows), the
    empty text, or another text. *)
Inductive text : Type :=
| IntText (z : Z)
| EmptyText
| OtherText.

(** [int(t)]; [None] when it raises [ValueError]. *)
Definition int (t : text) : option Z :=
  match t with IntText z => Some z | EmptyText | OtherText => None end.

(** Truth value of a text: the empty one is false. *)
Definition nonempty (t : text) : bool :=
  match t with EmptyText => false | IntText _ | OtherText => true end.

End Py.

(** ** HTTP responses *)

Inductive response (body : Type) : Type :=
| Ok200 (b : body)
| Created201 (b : body)
| NoContent204
| BadRequest400 (error : string)
| NotFound404 (error : string)
| ServerError500.

Arguments Ok200 {body} b.
Arguments Created201 {body} b.
Arguments NoContent204 {body}.
Arguments BadRequest400 {body} error.
Arguments NotFound404 {body} error.
Arguments ServerError500 {body}.

Definition status_code {body : Type} (r : response body) : Z :=
  match r with
  | Ok200 _ => 200
  | Created201 _ => 201
  | NoContent204 => 204
  | BadRequest400 _ => 400
  | NotFound404 _ => 404
  | ServerError500 => 500
  end.

(** The body Django's [Http404] is rendered with. *)
Definition detail_not_found : string := "Not found.".

(** ** The [items] application *)

Module Items.

(** A create or update request, over the columns of [Meta.fields] that
    have no default ([name], [type], [rarity]) and those the catalogue
    rules are about; [None] is a field the request does not carry.
    [durability] and [stat_modifiers] are nullable: [Some None] and
    [Some Py.PNone] are an explicit [null].  The other columns of
    [Meta.fields] ([description], [icon], [effect], [category],
    [sub_category], [is_active]) are nullable or have a default, and a
    request of this type carries none of them. *)
Record Request := {
  name : option string;
  type : option string;
  rarity : option string;
  stack_size : option Z;
  cooldown : option Z;
  upgrade_level : option Z;
  drop_rate : option Q;
  durability : option (option Z);
  stat_modifiers : option Py.value
}.

(** [Item.rarity]'s [choices] in items/models.py. *)
Definition rarity_choices : list string := ["common"; "rare"; "legendary"].

(** A validator either hands the value on or raises
    [serializers.ValidationError]. *)
Inductive validated (A : Type) : Type :=
| Valid (value : A)
| ValidationError (message : string).

Arguments Valid {A} value.
Arguments ValidationError {A} message.

Definition is_valid {A : Type} (v : validated A) : bool :=
  match v with Valid _ => true | ValidationError _ => false end.

(** Validation of one field: the checks the model serializer derives
    from the column ([declared]), then the [validate_<field>] method of
    the serializer class when it has one.  Neither runs on a field the
    request does not carry; such a field is an error only when the
    column has no default and the update is not partial. *)
Definition run_field {A : Type} (required partial : bool)
    (declared : A -> validated A) (method : option (A -> validated A))
    (field : option A) : bool :=
  match field with
  | None => negb required || partial
  | Some v =>
    match declared v with
    | ValidationError _ => false
    | Valid v =>
      match method with
      | Some validate => is_valid (validate v)
      | None => true
      end
    end
  end.

(** [name = models.CharField(max_length=255, unique=True)]: the
    serializer field trims the text ([strip] is [str.strip]) and, the
    column having no [blank=True], refuses the empty string; then it
    refuses a text of more than 255 characters, and one that is the
    name of a row of [names], the names of the catalogue's rows (on an
    update, of the rows other than the one updated). *)
Definition declared_name (strip : string -> string) (names : list string)
    (value : string) : validated string :=
  if String.eqb (strip value) "" then
    ValidationError "This field may not be blank."
  else if Nat.ltb 255 (String.length (strip value)) then
    ValidationError "Ensure this field has no more than 255 characters."
  else if Py.mem (strip value) names then
    ValidationError "item with this name already exists."
  else Valid (strip value).

(** [type = models.CharField(max_length=50)]: trimmed, not blank, of
    at most 50 characters. *)
Definition declared_type (strip : string -> string) (value : string)
  : validated string :=
  if String.eqb (strip value) "" then
    ValidationError "This field may not be blank."
  else if Nat.ltb 50 (String.length (strip value)) then
    ValidationError "Ensure this field has no more than 50 characters."
  else Valid (strip value).

(** [rarity = models.CharField(max_length=50, choices=[...])] *)
Definition declared_rarity (value : string) : validated string :=
  if Py.mem value rarity_choices then Valid value
  else ValidationError "Not a valid choice.".

End Items.

Module ItemCreateSerializer.
Import Items.

Definition validate_name (strip : string -> string) (value : string)
  : validated string :=
  if String.eqb value "" || String.eqb (strip value) "" then
    ValidationError "Item name cannot be empty"
  else Valid (strip value).

Definition validate_rarity (value : string) : validated string :=
  let allowed_rarities := ["common"; "rare"; "legendary"] in
  if negb (Py.mem value allowed_rarities) then
    ValidationError "Rarity must be one of: common, rare, legendary"
  else Valid value.

Definition validate_stack_size (value : Z) : validated Z :=
  if value <? 1 then ValidationError "Stack size must be at least 1"
  else if value >? 9999 then ValidationError "Stack size cannot exceed 9999"
  else Valid value.

Definition validate_cooldown (value : Z) : validated Z :=
  if value <? 0 then ValidationError "Cooldown cannot be negative"
  else Valid value.

Definition validate_upgrade_level (value : Z) : validated Z :=
  if value <? 0 then ValidationError "Upgrade level cannot be negative"
  else if value >? 100 then ValidationError "Upgrade level cannot exceed 100"
  else Valid value.

Definition validate_drop_rate (value : Q) : validated Q :=
  if Py.Qltb value 0 || Py.Qltb 1 value then
    ValidationError "Drop rate must be between 0.0 and 1.0"
  else Valid value.

Definition validate_durability (value : option Z) : validated (option Z) :=
  match value with
  | Some v =>
    if v <? 0 then ValidationError "Durability cannot be negative"
    else Valid value
  | None => Valid value
  end.

Definition validate_stat_modifiers (value : Py.value) : validated Py.value :=
  match value with
  | Py.PNone => Valid value
  | Py.PDict items =>
    if forallb (fun kv => Py.is_int_or_float (snd kv)) items then Valid value
    else ValidationError "stat_modifiers[key] must be a number"
  | _ => ValidationError "stat_modifiers must be a dictionary"
  end.

(** [serializer.is_valid()] on a create request, in a catalogue whose
    rows have the names [names]: [name], [type] and [rarity] have no
    default and are required. *)
Definition accepts (strip : string -> string) (names : list string)
    (r : Request) : bool :=
  run_field true false (declared_name strip names) (Some (validate_name strip))
    (name r)
  && run_field true false (declared_type strip) None (type r)
  && run_field true false declared_rarity (Some validate_rarity) (rarity r)
  && run_field false false Valid (Some validate_stack_size) (stack_size r)
  && run_field false false Valid (Some validate_cooldown) (cooldown r)
  && run_field false false Valid (Some validate_upgrade_level) (upgrade_level r)
  && run_field false false Valid (Some validate_drop_rate) (drop_rate r)
  && run_field false false Valid (Some validate_durability) (durability r)
  && run_field false false Valid (Some validate_stat_modifiers) (stat_modifiers r).

End ItemCreateSerializer.

Module ItemUpdateSerializer.
Import Items.

Definition validate_stack_size (value : Z) : validated Z :=
  if value <? 1 then ValidationError "Stack size must be at least 1"
  else if value >? 9999 then ValidationError "Stack size cannot exceed 9999"
  else Valid value.

Definition validate_cooldown (value : Z) : validated Z :=
  if value <? 0 then ValidationError "Cooldown cannot be negative"
  else Valid value.

Definition validate_upgrade_level (value : Z) : validated Z :=
  if value <? 0 then ValidationError "Upgrade level cannot be negative"
  else if value >? 100 then ValidationError "Upgrade level cannot exceed 100"
  else Valid value.

Definition validate_drop_rate (value : Q) : validated Q :=
  if Py.Qltb value 0 || Py.Qltb 1 value then
    ValidationError "Drop rate must be between 0.0 and 1.0"
  else Valid value.

Definition validate_durability (value : option Z) : validated (option Z) :=
  match value with
  | Some v =>
    if v <? 0 then ValidationError "Durability cannot be negative"
    else Valid value
  | None => Valid value
  end.

Definition validate_stat_modifiers (value : Py.value) : validated Py.value :=
  match value with
  | Py.PNone => Valid value
  | Py.PDict items =>
    if forallb (fun kv => Py.is_int_or_float (snd kv)) items then Valid value
    else ValidationError "stat_modifiers[key] must be a number"
  | _ => ValidationError "stat_modifiers must be a dictionary"
  end.

(** [serializer.is_valid()] on an update ([partial = false]) or a
    partial update of a row, the other rows of the catalogue having the
    names [names]; the class has no [validate_name] and no
    [validate_rarity], and an update that is not partial is to carry
    [name], [type] and [rarity]. *)
Definition accepts (strip : string -> string) (names : list string)
    (partial : bool) (r : Request) : bool :=
  run_field true partial (declared_name strip names) None (name r)
  && run_field true partial (declared_type strip) None (type r)
  && run_field true partial declared_rarity None (rarity r)
  && run_field false partial Valid (Some validate_stack_size) (stack_size r)
  && run_field false partial Valid (Some validate_cooldown) (cooldown r)
  && run_field false partial Valid (Some validate_upgrade_level) (upgrade_level r)
  && run_field false partial Valid (Some validate_drop_rate) (drop_rate r)
  && run_field false partial Valid (Some validate_durability) (durability r)
  && run_field false partial Valid (Some validate_stat_modifiers) (stat_modifiers r).

End ItemUpdateSerializer.

Module ItemViewSet.

(** A row of the catalogue, over the columns the views read or write. *)
Record Item := {
  name : string;
  type : string;
  rarity : string;
  category : option string;
  sub_category : option string;
  is_active : bool;
  updated_at : Z
}.

(** The query string of the item collection.  [None] is an absent
    parameter; [q_is_active] is the value of [is_active.lower() ==
    'true']. *)
Record Query := {
  q_type : option string;
  q_rarity : option string;
  q_category : option string;
  q_sub_category : option string;
  q_is_active : option bool;
  q_search : option string
}.

Definition no_query : Query :=
  {| q_type := None; q_rarity := None; q_category := None;
     q_sub_category := None; q_is_active := None; q_search := None |}.

(** [if param: queryset = queryset.filter(column=param)] *)
Definition filter_text (param : option string) (column : string) : bool :=
  match param with
  | Some v => negb (Py.truthy (Py.PStr v)) || String.eqb column v
  | None => true
  end.

(** The same on a nullable column: a [NULL] equals no text. *)
Definition filter_nullable (param : option string) (column : option string) : bool :=
  match param with
  | Some v =>
    negb (Py.truthy (Py.PStr v))
    || match column with Some c => String.eqb c v | None => false end
  | None => true
  end.

(** [ItemViewSet.get_queryset] as the membership test of a row; the
    order of the rows ([order_by('name')]) is not modelled.
    [icontains text part] is the case-insensitive containment test of
    the [name__icontains] lookup. *)
Definition in_queryset (icontains : string -> string -> bool) (qp : Query)
    (item : Item) : bool :=
  filter_text (q_type qp) (type item)
  && filter_text (q_rarity qp) (rarity item)
  && filter_nullable (q_category qp) (category item)
  && filter_nullable (q_sub_category qp) (sub_category item)
  && match q_is_active qp with
     | Some a => Bool.eqb (is_active item) a
     | None => true
     end
  && match q_search qp with
     | Some text => negb (Py.truthy (Py.PStr text)) || icontains (name item) text
     | None => true
     end.

(** [self.get_object()] *)
Definition get_object (icontains : string -> string -> bool) (qp : Query)
    (items : gmap positive Item) (pk : positive) : option Item :=
  match items !! pk with
  | Some item => if in_queryset icontains qp item then Some item else None
  | None => None
  end.

Definition set_active (item : Item) (active : bool) (now : Z) : Item :=
  {| name := name item; type := type item; rarity := rarity item;
     category := category item; sub_category := sub_category item;
     is_active := active; updated_at := now |}.

(** [ItemViewSet.activate] *)
Definition activate (icontains : string -> string -> bool) (qp : Query)
    (pk : positive) (now : Z) (items : gmap positive Item)
  : response (positive * Item) * gmap positive Item :=
  match get_object icontains qp items pk with
  | None => (NotFound404 detail_not_found, items)
  | Some item =>
    let item := set_active item true now in
    (Ok200 (pk, item), <[pk := item]> items)
  end.

(** [ItemViewSet.deactivate] *)
Definition deactivate (icontains : string -> string -> bool) (qp : Query)
    (pk : positive) (now : Z) (items : gmap positive Item)
  : response (positive * Item) * gmap positive Item :=
  match get_object icontains qp items pk with
  | None => (NotFound404 detail_not_found, items)
  | Some item =>
    let item := set_active item false now in
    (Ok200 (pk, item), <[pk := item]> items)
  end.

(** [ItemViewSet.by_rarity]: the answer is the membership test of its
    rows. *)
Definition by_rarity (icontains : string -> string -> bool) (qp : Query)
  : response (Item -> bool) :=
  match q_rarity qp with
  | Some r =>
    if negb (Py.truthy (Py.PStr r)) then
      BadRequest400 "rarity parameter is required"
    else
      Ok200 (fun item => in_queryset icontains qp item && String.eqb (rarity item) r)
  | None => BadRequest400 "rarity parameter is required"
  end.

(** [ItemViewSet.by_type] *)
Definition by_type (icontains : string -> string -> bool) (qp : Query)
  : response (Item -> bool) :=
  match q_type qp with
  | Some t =>
    if negb (Py.truthy (Py.PStr t)) then
      BadRequest400 "type parameter is required"
    else
      Ok200 (fun item => in_queryset icontains qp item && String.eqb (type item) t)
  | None => BadRequest400 "type parameter is required"
  end.

End ItemViewSet.

(** ** The [game] application *)


(** *** models.py *)

Inductive GameStatus := waiting | active | paused | finished.

Inductive CharacterStatus :=
| idle | moving | looting | interacting | in_combat | dead.

Definition is_dead (st : CharacterStatus) : bool :=
  match st with dead => true | _ => false end.

Definition joinable (st : GameStatus) : bool :=
  match st with waiting | active => true | _ => false end.

Record GameRow := {
  g_name : string;
  g_status : GameStatus;
  g_max_players : Z;
  g_current_tick : Z;
  g_started_at : option Z
}.

Record Player := {
  p_game : positive;
  p_user : positive;
  p_player_name : string;
  p_color : string;
  p_avatar : string;
  p_is_active : bool;
  p_is_ai : bool;
  p_score : Z;
  p_joined_at : Z
}.

Record HexTile := {
  t_game : positive;
  t_q : Z;
  t_r : Z;
  t_terrain_type : string;
  t_elevation : Z;
  t_is_passable : bool
}.

Record Character := {
  c_game : positive;
  c_owner : positive;
  c_name : string;
  c_health : Z;
  c_max_health : Z;
  c_stamina : Z;
  c_max_stamina : Z;
  c_experience : Z;
  c_level : Z;
  c_position_q : Z;
  c_position_r : Z;
  c_status : CharacterStatus;
  c_movement_path : Py.value;
  c_movement_points : Z;
  c_inventory : list Py.value;
  c_current_orders : Py.value;
  c_in_combat : bool;
  c_combat_id : string;
  c_attributes : Py.value;
  c_skills : Py.value;
  c_updated_at : Z;
  c_died_at : option Z
}.

Record MapItem := {
  m_game : positive;
  m_item_type : string;
  m_item_id : string;
  m_position_q : Z;
  m_position_r : Z;
  m_quantity : Z;
  m_rarity : string;
  m_is_available : bool;
  m_is_locked : bool;
  m_spawned_at_tick : Z;
  m_collected_at : option Z;
  m_collected_by : option positive
}.

Record Interactable := {
  i_game : positive;
  i_name : string;
  i_position_q : Z;
  i_position_r : Z;
  i_is_active : bool;
  i_max_uses : Z;
  i_current_uses : Z;
  i_cooldown_ticks : Z;
  i_last_used_tick : option Z;
  i_interactions : list Py.value;
  i_updated_at : Z
}.

(** The relational store.  A table with a primary key is a finite map
    from the key; the tile table is the list of its rows in primary-key
    order, which is the order [.first()] scans an unordered queryset
    in.  The list does not build the [(game, q, r)] uniqueness in. *)
Record Store := {
  games : gmap positive GameRow;
  players : gmap positive Player;
  hex_tiles : list HexTile;
  characters : gmap positive Character;
  map_items : gmap positive MapItem;
  interactables : gmap positive Interactable
}.

Definition empty_store : Store :=
  {| games := ∅; players := ∅; hex_tiles := []; characters := ∅;
     map_items := ∅; interactables := ∅ |}.

Definition with_players (s : Store) (ps : gmap positive Player) : Store :=
  {| games := games s; players := ps; hex_tiles := hex_tiles s;
     characters := characters s; map_items := map_items s;
     interactables := interactables s |}.

Definition with_hex_tiles (s : Store) (ts : list HexTile) : Store :=
  {| games := games s; players := players s; hex_tiles := ts;
     characters := characters s; map_items := map_items s;
     interactables := interactables s |}.

Definition with_characters (s : Store) (cs : gmap positive Character) : Store :=
  {| games := games s; players := players s; hex_tiles := hex_tiles s;
     characters := cs; map_items := map_items s;
     interactables := interactables s |}.

Definition with_map_items (s : Store) (ms : gmap positive MapItem) : Store :=
  {| games := games s; players := players s; hex_tiles := hex_tiles s;
     characters := characters s; map_items := ms;
     interactables := interactables s |}.

Definition with_interactables (s : Store) (xs : gmap positive Interactable) : Store :=
  {| games := games s; players := players s; hex_tiles := hex_tiles s;
     characters := characters s; map_items := map_items s;
     interactables := xs |}.

(** [HexTile.objects.filter(game=g, q=q, r=r)] *)
Definition tile_at (g : positive) (q r : Z) (t : HexTile) : bool :=
  Pos.eqb (t_game t) g && (t_q t =? q) && (t_r t =? r).

Definition tiles_filter (g : positive) (q r : Z) (ts : list HexTile) : list HexTile :=
  List.filter (tile_at g q r) ts.

(** [.first()] *)
Definition first {A : Type} (l : list A) : option A :=
  match l with [] => None | x :: _ => Some x end.

(** [.exists()] *)
Definition exists_ {A : Type} (l : list A) : bool :=
  match l with [] => false | _ => true end.

(** [Meta.unique_together = [['game', 'q', 'r']]] as a property of the
    tile table: no two rows have the same key. *)
Definition tile_key (t : HexTile) : positive * Z * Z := (t_game t, t_q t, t_r t).

Definition tiles_unique (ts : list HexTile) : Prop := NoDup (tile_key <$> ts).

(** A passable tile of [game] lies at [(q, r)]. *)
Definition passable_tile_at (ts : list HexTile) (game : positive) (q r : Z) : Prop :=
  exists t, t ∈ ts /\ tile_key t = (game, q, r) /\ t_is_passable t = true.

(** *** serializers.py *)

(** A [str] is a [string], one character for one character: the text of
    a request is taken over the characters with a code point below 256,
    so that [len] is [String.length]. *)

Module PlayerCreateSerializer.

(** [validate_color] *)
Definition validate_color (value : string) : option string :=
  if negb (String.prefix "#" value) || negb (Nat.eqb (String.length value) 7)
  then Some "Color must be in hex format (#RRGGBB)"
  else None.

(** [game.players.filter(is_active=True).count()] *)
Definition active_player_count (ps : gmap positive Player) (game : positive) : Z :=
  Z.of_nat (length (List.filter
                      (fun kp => Pos.eqb (p_game (snd kp)) game
                                 && p_is_active (snd kp))
                      (map_to_list ps))).

(** [validate]; [game] is [data.get('game')], the row the related field
    has resolved, and [pk] its key. *)
Definition validate (ps : gmap positive Player) (pk : positive) (game : GameRow)
  : option string :=
  if negb (joinable (g_status game)) then
    Some "Cannot join a finished or paused game"
  else if active_player_count ps pk >=? g_max_players game then
    Some "Game is full"
  else None.

End PlayerCreateSerializer.

Module HexTileSerializer.

(** [validate].  [instance] is [self.instance]: [None] on a create, the
    row under update otherwise, named by its place in the table. *)
Definition validate (instance : option nat) (ts : list HexTile)
    (game : positive) (q r : Z) : option string :=
  match instance with
  | Some pk =>
    if exists_ (List.filter
                  (fun it => tile_at game q r (snd it) && negb (Nat.eqb (fst it) pk))
                  (combine (seq 0 (length ts)) ts))
    then Some "A tile already exists at these coordinates"
    else None
  | None =>
    if exists_ (tiles_filter game q r ts)
    then Some "A tile already exists at these coordinates"
    else None
  end.

End HexTileSerializer.

Module InteractableSerializer.

(** [InteractableSerializer.get_can_use]; [game] is [obj.game]. *)
Definition get_can_use (obj : Interactable) (game : GameRow) : bool :=
  if (i_max_uses obj >? 0) && (i_current_uses obj >=? i_max_uses obj) then
    false
  else
    match i_last_used_tick obj with
    | Some last_used_tick =>
      (* [if obj.last_used_tick and obj.cooldown_ticks > 0] *)
      if negb (last_used_tick =? 0) && (i_cooldown_ticks obj >? 0) then
        if g_current_tick game - last_used_tick <? i_cooldown_ticks obj
        then false
        else i_is_active obj
      else i_is_active obj
    | None => i_is_active obj
    end.

End InteractableSerializer.

Module GameCreateSerializer.

Definition validate_tick_duration_minutes (value : Z) : option string :=
  if value <? 1 then Some "Tick duration must be at least 1 minute"
  else if value >? 1440 then
    Some "Tick duration cannot exceed 1440 minutes (24 hours)"
  else None.

Definition validate_map_width (value : Z) : option string :=
  if (value <? 10) || (value >? 200) then
    Some "Map width must be between 10 and 200"
  else None.

Definition validate_map_height (value : Z) : option string :=
  if (value <? 10) || (value >? 200) then
    Some "Map height must be between 10 and 200"
  else None.

End GameCreateSerializer.

Module CharacterCreateSerializer.

(** [validate]; [game] is the key of [data.get('game')] and [owner] the
    row of [data.get('owner')].  Two model instances are equal when they
    are the same row. *)
Definition validate (ts : list HexTile) (game : positive) (owner : Player)
    (q r : Z) : option string :=
  if negb (Pos.eqb (p_game owner) game) then
    Some "Owner must belong to the same game"
  else if negb (exists_ (tiles_filter game q r ts)) then
    Some "Starting position must be a valid tile"
  else None.

End CharacterCreateSerializer.

Module MapItemCreateSerializer.

Definition validate (ts : list HexTile) (game : positive) (q r : Z)
  : option string :=
  if negb (exists_ (tiles_filter game q r ts)) then
    Some "Item must be placed on a valid tile"
  else None.

End MapItemCreateSerializer.

Module InteractableCreateSerializer.

Definition validate (ts : list HexTile) (game : positive) (q r : Z)
  : option string :=
  if negb (exists_ (tiles_filter game q r ts)) then
    Some "Interactable must be placed on a valid tile"
  else None.

End InteractableCreateSerializer.

(** *** views.py: CharacterViewSet *)

(** The query string of a request to the characters collection, its
    values already read as integers.  [None] is a parameter that is
    absent (or empty, which [if game_id:] treats alike). *)
Record CharacterQuery := {
  cq_game : option Z;
  cq_owner : option Z;
  cq_q : option Z;
  cq_r : option Z
}.

Definition no_character_query : CharacterQuery :=
  {| cq_game := None; cq_owner := None; cq_q := None; cq_r := None |}.

Definition filter_eq (param : option Z) (column : Z) : bool :=
  match param with Some v => column =? v | None => true end.

(** [CharacterViewSet.get_queryset] as the membership test of a row. *)
Definition character_in_queryset (qp : CharacterQuery) (c : Character) : bool :=
  negb (is_dead (c_status c))
  && filter_eq (cq_game qp) (Z.pos (c_game c))
  && filter_eq (cq_owner qp) (Z.pos (c_owner c))
  && match cq_q qp, cq_r qp with
     | Some q, Some r => (c_position_q c =? q) && (c_position_r c =? r)
     | _, _ => true
     end.

(** [self.get_object()]: the row with this primary key, if the queryset
    holds it; [None] stands for the [Http404] it raises otherwise. *)
Definition get_character (qp : CharacterQuery) (s : Store) (pk : positive)
  : option Character :=
  match characters s !! pk with
  | Some c => if character_in_queryset qp c then Some c else None
  | None => None
  end.

Definition moved (c : Character) (q r now : Z) : Character :=
  {| c_game := c_game c; c_owner := c_owner c; c_name := c_name c;
     c_health := c_health c; c_max_health := c_max_health c;
     c_stamina := c_stamina c; c_max_stamina := c_max_stamina c;
     c_experience := c_experience c; c_level := c_level c;
     c_position_q := q; c_position_r := r; c_status := idle;
     c_movement_path := c_movement_path c;
     c_movement_points := c_movement_points c;
     c_inventory := c_inventory c;
     c_current_orders := c_current_orders c;
     c_in_combat := c_in_combat c; c_combat_id := c_combat_id c;
     c_attributes := c_attributes c; c_skills := c_skills c;
     c_updated_at := now; c_died_at := c_died_at c |}.

(** What a view answers with on success: the serialized row, with its
    primary key; an interactable comes with the [can_use] its
    serializer computes. *)
Inductive body : Type :=
| CharacterBody (pk : positive) (c : Character)
| InteractableBody (pk : positive) (i : Interactable) (can_use : bool)
| PlayerBody (pk : positive) (p : Player)
| HexTileBody (t : HexTile).

(** [CharacterViewSet.move].  [q] and [r] are [request.data.get('q')]
    and [request.data.get('r')]; [now] is the clock at [save()], which
    sets the [auto_now] column. *)
Definition move (qp : CharacterQuery) (pk : positive) (q r : option Z)
    (now : Z) (s : Store) : response body * Store :=
  match get_character qp s pk with
  | None => (NotFound404 detail_not_found, s)
  | Some character =>
    match q, r with
    | Some q, Some r =>
      match first (tiles_filter (c_game character) q r (hex_tiles s)) with
      | None => (BadRequest400 "Invalid tile coordinates", s)
      | Some tile =>
        if negb (t_is_passable tile) then
          (BadRequest400 "Tile is not passable", s)
        else
          let character := moved character q r now in
          (Ok200 (CharacterBody pk character),
           with_characters s (<[pk := character]> (characters s)))
      end
    | _, _ => (BadRequest400 "q and r coordinates are required", s)
    end
  end.

(** [CharacterViewSet.retrieve] *)
Definition retrieve (qp : CharacterQuery) (pk : positive) (s : Store)
  : response body * Store :=
  match get_character qp s pk with
  | None => (NotFound404 detail_not_found, s)
  | Some character => (Ok200 (CharacterBody pk character), s)
  end.

(** The validated body of an update: for every field of
    [CharacterUpdateSerializer.Meta.fields] the value the request
    carries for it, read by its serializer field, or [None]. *)
Record CharacterUpdate := {
  u_health : option Z;
  u_stamina : option Z;
  u_experience : option Z;
  u_level : option Z;
  u_position_q : option Z;
  u_position_r : option Z;
  u_status : option CharacterStatus;
  u_movement_path : option Py.value;
  u_movement_points : option Z;
  u_inventory : option (list Py.value);
  u_current_orders : option Py.value;
  u_in_combat : option bool;
  u_combat_id : option string;
  u_attributes : option Py.value;
  u_skills : option Py.value
}.

(** [CharacterUpdateSerializer.validate_health]: [self.instance] is the
    row being updated, which is truthy. *)
Definition validate_health (instance : Character) (value : Z) : option string :=
  if value >? c_max_health instance
  then Some "Health cannot exceed max_health" else None.

Definition validate_stamina (instance : Character) (value : Z) : option string :=
  if value >? c_max_stamina instance
  then Some "Stamina cannot exceed max_stamina" else None.

(** A field validator runs only on a field the request carries. *)
Definition on_field {A : Type} (check : A -> option string) (field : option A)
  : option string :=
  match field with Some v => check v | None => None end.

(** The columns of [Character] without a default, which a full update
    ([partial=False]) has to carry. *)
Definition required_present (d : CharacterUpdate) : bool :=
  bool_decide (is_Some (u_position_q d)) && bool_decide (is_Some (u_position_r d)).

Definition first_error (errors : list (option string)) : option string :=
  match List.filter (fun e => bool_decide (is_Some e)) errors with
  | e :: _ => e
  | [] => None
  end.

(** [serializer.is_valid()] of [CharacterUpdateSerializer]. *)
Definition update_errors (partial : bool) (instance : Character)
    (d : CharacterUpdate) : option string :=
  first_error
    [ (if negb partial && negb (required_present d)
       then Some "This field is required." else None);
      on_field (validate_health instance) (u_health d);
      on_field (validate_stamina instance) (u_stamina d) ].

(** [serializer.save()]: every carried field is assigned, then the row
    is written. *)
Definition updated (c : Character) (d : CharacterUpdate) (now : Z) : Character :=
  {| c_game := c_game c; c_owner := c_owner c; c_name := c_name c;
     c_health := default (c_health c) (u_health d);
     c_max_health := c_max_health c;
     c_stamina := default (c_stamina c) (u_stamina d);
     c_max_stamina := c_max_stamina c;
     c_experience := default (c_experience c) (u_experience d);
     c_level := default (c_level c) (u_level d);
     c_position_q := default (c_position_q c) (u_position_q d);
     c_position_r := default (c_position_r c) (u_position_r d);
     c_status := default (c_status c) (u_status d);
     c_movement_path := default (c_movement_path c) (u_movement_path d);
     c_movement_points := default (c_movement_points c) (u_movement_points d);
     c_inventory := default (c_inventory c) (u_inventory d);
     c_current_orders := default (c_current_orders c) (u_current_orders d);
     c_in_combat := default (c_in_combat c) (u_in_combat d);
     c_combat_id := default (c_combat_id c) (u_combat_id d);
     c_attributes := default (c_attributes c) (u_attributes d);
     c_skills := default (c_skills c) (u_skills d);
     c_updated_at := now; c_died_at := c_died_at c |}.

(** [CharacterViewSet.update] ([partial = false]) and
    [partial_update] ([partial = true]), inherited from
    [ModelViewSet]. *)
Definition update (partial : bool) (qp : CharacterQuery) (pk : positive)
    (d : CharacterUpdate) (now : Z) (s : Store) : response body * Store :=
  match get_character qp s pk with
  | None => (NotFound404 detail_not_found, s)
  | Some instance =>
    match update_errors partial instance d with
    | Some e => (BadRequest400 e, s)
    | None =>
      let instance := updated instance d now in
      (Ok200 (CharacterBody pk instance),
       with_characters s (<[pk := instance]> (characters s)))
    end
  end.

(** [on_delete=models.SET_NULL] of [MapItem.collected_by]. *)
Definition forget_collector (pk : positive) (m : MapItem) : MapItem :=
  if bool_decide (m_collected_by m = Some pk) then
    {| m_game := m_game m; m_item_type := m_item_type m;
       m_item_id := m_item_id m; m_position_q := m_position_q m;
       m_position_r := m_position_r m; m_quantity := m_quantity m;
       m_rarity := m_rarity m; m_is_available := m_is_available m;
       m_is_locked := m_is_locked m;
       m_spawned_at_tick := m_spawned_at_tick m;
       m_collected_at := m_collected_at m; m_collected_by := None |}
  else m.

(** [CharacterViewSet.destroy], inherited from [ModelViewSet]. *)
Definition destroy (qp : CharacterQuery) (pk : positive) (s : Store)
  : response body * Store :=
  match get_character qp s pk with
  | None => (NotFound404 detail_not_found, s)
  | Some _ =>
    (NoContent204,
     with_map_items (with_characters s (delete pk (characters s)))
                    (forget_collector pk <$> map_items s))
  end.

Section Views.

(** [datetime.isoformat()] of an instant. *)
Variable isoformat : Z -> string.

(** The primary key the ORM reads a lookup value as (the [int(value)]
    of the key field); [None] when that conversion raises.  An
    integer is read as itself. *)
Variable to_pk : Py.value -> option Z.
Hypothesis to_pk_int : forall z, to_pk (Py.PInt z) = Some z.

Definition looted (c : Character) (entry : Py.value) (now : Z) : Character :=
  {| c_game := c_game c; c_owner := c_owner c; c_name := c_name c;
     c_health := c_health c; c_max_health := c_max_health c;
     c_stamina := c_stamina c; c_max_stamina := c_max_stamina c;
     c_experience := c_experience c; c_level := c_level c;
     c_position_q := c_position_q c; c_position_r := c_position_r c;
     c_status := c_status c;
     c_movement_path := c_movement_path c;
     c_movement_points := c_movement_points c;
     c_inventory := c_inventory c ++ [entry];
     c_current_orders := c_current_orders c;
     c_in_combat := c_in_combat c; c_combat_id := c_combat_id c;
     c_attributes := c_attributes c; c_skills := c_skills c;
     c_updated_at := now; c_died_at := c_died_at c |}.

Definition collected (m : MapItem) (now : Z) (by_ : positive) : MapItem :=
  {| m_game := m_game m; m_item_type := m_item_type m;
     m_item_id := m_item_id m; m_position_q := m_position_q m;
     m_position_r := m_position_r m; m_quantity := m_quantity m;
     m_rarity := m_rarity m; m_is_available := false;
     m_is_locked := m_is_locked m;
     m_spawned_at_tick := m_spawned_at_tick m;
     m_collected_at := Some now; m_collected_by := Some by_ |}.

(** The dictionary [loot] appends to the inventory. *)
Definition inventory_entry (m : MapItem) (now : Z) : Py.value :=
  Py.PDict [ ("item_id", Py.PStr (m_item_id m));
             ("item_type", Py.PStr (m_item_type m));
             ("quantity", Py.PInt (m_quantity m));
             ("looted_at", Py.PStr (isoformat now)) ].

(** The filter of [loot] but for the [id]. *)
Definition lootable_by (c : Character) (m : MapItem) : bool :=
  Pos.eqb (m_game m) (c_game c)
  && (m_position_q m =? c_position_q c)
  && (m_position_r m =? c_position_r c)
  && m_is_available m.

(** A table row by a key that came in as an integer: keys are
    positive, so no row has another one. *)
Definition row {A : Type} (table : gmap positive A) (k : Z) : option A :=
  match k with Z.pos p => table !! p | _ => None end.

Definition key (k : Z) : positive :=
  match k with Z.pos p => p | _ => 1%positive end.

(** [CharacterViewSet.loot].  The clock is read once for the
    request. *)
Definition loot (qp : CharacterQuery) (pk : positive) (item_id : Py.value)
    (now : Z) (s : Store) : response body * Store :=
  match get_character qp s pk with
  | None => (NotFound404 detail_not_found, s)
  | Some character =>
    if negb (Py.truthy item_id) then
      (BadRequest400 "item_id is required", s)
    else
      match to_pk item_id with
      | None => (ServerError500, s)
      | Some k =>
        match first (List.filter (lootable_by character)
                                 (option_list (row (map_items s) k))) with
        | None => (NotFound404 "Item not found at this position", s)
        | Some map_item =>
          let character :=
            looted character (inventory_entry map_item now) now in
          let map_item := collected map_item now pk in
          (Ok200 (CharacterBody pk character),
           with_map_items
             (with_characters s (<[pk := character]> (characters s)))
             (<[key k := map_item]> (map_items s)))
        end
      end
  end.

(** *** views.py: InteractableViewSet *)

Record InteractableQuery := {
  iq_game : option Z;
  iq_active : option bool;
  iq_q : option Z;
  iq_r : option Z
}.

Definition no_interactable_query : InteractableQuery :=
  {| iq_game := None; iq_active := None; iq_q := None; iq_r := None |}.

(** [InteractableViewSet.get_queryset]; [iq_active] is the value of
    [active.lower() == 'true']. *)
Definition interactable_in_queryset (qp : InteractableQuery)
    (i : Interactable) : bool :=
  filter_eq (iq_game qp) (Z.pos (i_game i))
  && match iq_active qp with
     | Some a => Bool.eqb (i_is_active i) a
     | None => true
     end
  && match iq_q qp, iq_r qp with
     | Some q, Some r => (i_position_q i =? q) && (i_position_r i =? r)
     | _, _ => true
     end.

Definition get_interactable (qp : InteractableQuery) (s : Store)
    (pk : positive) : option Interactable :=
  match interactables s !! pk with
  | Some i => if interactable_in_queryset qp i then Some i else None
  | None => None
  end.

(** The dictionary [interact] appends to the history. *)
Definition interaction_record (character_id : Z) (character : Character)
    (tick now : Z) : Py.value :=
  Py.PDict [ ("character_id", Py.PInt character_id);
             ("character_name", Py.PStr (c_name character));
             ("tick", Py.PInt tick);
             ("timestamp", Py.PStr (isoformat now));
             ("result", Py.PStr "success") ].

Definition used (i : Interactable) (tick : Z) (record : Py.value) (now : Z)
  : Interactable :=
  {| i_game := i_game i; i_name := i_name i;
     i_position_q := i_position_q i; i_position_r := i_position_r i;
     i_is_active := i_is_active i; i_max_uses := i_max_uses i;
     i_current_uses := i_current_uses i + 1;
     i_cooldown_ticks := i_cooldown_ticks i;
     i_last_used_tick := Some tick;
     i_interactions := i_interactions i ++ [record];
     i_updated_at := now |}.

(** [InteractableViewSet.interact].  A missing [interactable.game]
    row would raise; a foreign key rules it out. *)
Definition interact (qp : InteractableQuery) (pk : positive)
    (character_id : Py.value) (now : Z) (s : Store) : response body * Store :=
  match get_interactable qp s pk with
  | None => (NotFound404 detail_not_found, s)
  | Some interactable =>
    if negb (Py.truthy character_id) then
      (BadRequest400 "character_id is required", s)
    else
      match to_pk character_id with
      | None => (ServerError500, s)
      | Some k =>
        match first (List.filter
                       (fun c => Pos.eqb (c_game c) (i_game interactable))
                       (option_list (row (characters s) k))) with
        | None => (NotFound404 "No Character matches the given query.", s)
        | Some character =>
          if negb (c_position_q character =? i_position_q interactable)
             || negb (c_position_r character =? i_position_r interactable)
          then
            (BadRequest400
               "Character must be at the same position as the interactable", s)
          else if negb (i_is_active interactable) then
            (BadRequest400 "Interactable is not active", s)
          else if (i_max_uses interactable >? 0)
                  && (i_current_uses interactable >=? i_max_uses interactable)
          then
            (BadRequest400 "Interactable has been used maximum times", s)
          else
            match games s !! i_game interactable with
            | None => (ServerError500, s)
            | Some game =>
              let tick := g_current_tick game in
              let interactable :=
                used interactable tick
                     (interaction_record k character tick now) now in
              (Ok200 (InteractableBody pk interactable
                                       (InteractableSerializer.get_can_use interactable game)),
               with_interactables s
                 (<[pk := interactable]> (interactables s)))
            end
        end
      end
  end.

(** *** views.py: PlayerViewSet *)

(** The body of a join, each field as its serializer field has read it.
    [color] and [avatar] have a default in the model and may be
    absent. *)
Record JoinRequest := {
  j_game : positive;
  j_player_name : string;
  j_color : option string;
  j_avatar : option string
}.

(** The checks the model serializer derives from the columns of
    [Player]: [player_name] and [color] are not [blank=True], and
    [max_length] is 100, 7 and 255. *)
Definition declared_player_fields (req : JoinRequest) : option string :=
  if String.eqb (j_player_name req) "" then Some "This field may not be blank."
  else if (100 <? String.length (j_player_name req))%nat then
    Some "Ensure this field has no more than 100 characters."
  else if bool_decide (j_color req = Some "") then
    Some "This field may not be blank."
  else if (7 <? String.length (default "" (j_color req)))%nat then
    Some "Ensure this field has no more than 7 characters."
  else if (255 <? String.length (default "" (j_avatar req)))%nat then
    Some "Ensure this field has no more than 255 characters."
  else None.

Definition new_player (user : positive) (req : JoinRequest) (now : Z) : Player :=
  {| p_game := j_game req; p_user := user;
     p_player_name := j_player_name req;
     p_color := default "#FF0000" (j_color req);
     p_avatar := default "" (j_avatar req);
     p_is_active := true; p_is_ai := false; p_score := 0;
     p_joined_at := now |}.

(** [unique_together = [['game', 'user']]] of [Player], which the
    database checks at the insert: the serializer has no [user] field to
    check it with. *)
Definition has_player (ps : gmap positive Player) (game user : positive) : bool :=
  exists_ (List.filter
             (fun kp => Pos.eqb (p_game (snd kp)) game
                        && Pos.eqb (p_user (snd kp)) user)
             (map_to_list ps)).

(** [PlayerViewSet.create] with [PlayerCreateSerializer] and
    [perform_create]; [user] is [request.user].  The new row gets a key
    no row has. *)
Definition join (user : positive) (req : JoinRequest) (now : Z) (s : Store)
  : response body * Store :=
  match declared_player_fields req with
  | Some e => (BadRequest400 e, s)
  | None =>
    match on_field PlayerCreateSerializer.validate_color (j_color req) with
    | Some e => (BadRequest400 e, s)
    | None =>
      match games s !! j_game req with
      | None => (BadRequest400 "Invalid pk - object does not exist.", s)
      | Some game =>
        match PlayerCreateSerializer.validate (players s) (j_game req) game with
        | Some e => (BadRequest400 e, s)
        | None =>
          if has_player (players s) (j_game req) user then (ServerError500, s)
          else
            let pk := fresh (dom (players s)) in
            let player := new_player user req now in
            (Created201 (PlayerBody pk player),
             with_players s (<[pk := player]> (players s)))
        end
      end
    end
  end.

(** *** views.py: HexTileViewSet *)

Record TileRequest := {
  tr_game : positive;
  tr_q : Z;
  tr_r : Z;
  tr_terrain_type : option string;
  tr_elevation : option Z;
  tr_is_passable : option bool
}.

(** [HexTile.TERRAIN_CHOICES] *)
Definition terrain_choices : list string :=
  ["plains"; "forest"; "mountain"; "water"; "desert"; "swamp"; "snow"; "urban"].

Definition new_tile (req : TileRequest) : HexTile :=
  {| t_game := tr_game req; t_q := tr_q req; t_r := tr_r req;
     t_terrain_type := default "plains" (tr_terrain_type req);
     t_elevation := default 0 (tr_elevation req);
     t_is_passable := default true (tr_is_passable req) |}.

(** [HexTileViewSet.create] with [HexTileSerializer]. *)
Definition create_tile (req : TileRequest) (s : Store) : response body * Store :=
  match games s !! tr_game req with
  | None => (BadRequest400 "Invalid pk - object does not exist.", s)
  | Some _ =>
    if negb (Py.mem (default "plains" (tr_terrain_type req)) terrain_choices)
    then (BadRequest400 "Not a valid choice.", s)
    else
      match HexTileSerializer.validate None (hex_tiles s)
                                       (tr_game req) (tr_q req) (tr_r req) with
      | Some e => (BadRequest400 e, s)
      | None =>
        let tile := new_tile req in
        (Created201 (HexTileBody tile),
         with_hex_tiles s (hex_tiles s ++ [tile]))
      end
  end.

(** *** The requests of the API, one after the other *)

Inductive Request : Type :=
| Retrieve (qp : CharacterQuery) (pk : positive)
| Update (partial : bool) (qp : CharacterQuery) (pk : positive)
         (d : CharacterUpdate)
| Destroy (qp : CharacterQuery) (pk : positive)
| Move (qp : CharacterQuery) (pk : positive) (q r : option Z)
| Loot (qp : CharacterQuery) (pk : positive) (item_id : Py.value)
| Interact (qp : InteractableQuery) (pk : positive) (character_id : Py.value)
| Join (user : positive) (req : JoinRequest)
| CreateTile (req : TileRequest).

(** One request served at instant [now]. *)
Definition serve (now : Z) (rq : Request) (s : Store) : response body * Store :=
  match rq with
  | Retrieve qp pk => retrieve qp pk s
  | Update partial qp pk d => update partial qp pk d now s
  | Destroy qp pk => destroy qp pk s
  | Move qp pk q r => move qp pk q r now s
  | Loot qp pk item_id => loot qp pk item_id now s
  | Interact qp pk character_id => interact qp pk character_id now s
  | Join user req => join user req now s
  | CreateTile req => create_tile req s
  end.

(** A run of requests, each with the instant it is served at: the
    responses in order and the store at the end. *)
Fixpoint run (rqs : list (Z * Request)) (s : Store)
  : list (response body) * Store :=
  match rqs with
  | [] => ([], s)
  | (now, rq) :: rest =>
    let (resp, s1) := serve now rq s in
    let (resps, s2) := run rest s1 in
    (resp :: resps, s2)
  end.

(** One interact attempt: the query string, the body and the instant. *)
Record Attempt := {
  a_query : InteractableQuery;
  a_character_id : Py.value;
  a_now : Z
}.

Definition attempt_request (pk : positive) (a : Attempt) : Z * Request :=
  (a_now a, Interact (a_query a) pk (a_character_id a)).

(** *** views.py: GameViewSet *)

Definition with_games (s : Store) (gs : gmap positive GameRow) : Store :=
  {| games := gs; players := players s; hex_tiles := hex_tiles s;
     characters := characters s; map_items := map_items s;
     interactables := interactables s |}.

(** The body of a game creation, each field as its serializer field has
    read it; the fields with a default in the model may be absent.
    [status] and [current_tick] are not fields of the serializer. *)
Record GameCreate := {
  gc_name : string;
  gc_max_players : option Z;
  gc_tick_duration_minutes : option Z;
  gc_map_name : string;
  gc_map_width : option Z;
  gc_map_height : option Z
}.

(** The checks derived from the columns of [Game]: [name] and
    [map_name] are not [blank=True], with [max_length] 255 and 100. *)
Definition declared_game_fields (req : GameCreate) : option string :=
  if String.eqb (gc_name req) "" then Some "This field may not be blank."
  else if (255 <? String.length (gc_name req))%nat then
    Some "Ensure this field has no more than 255 characters."
  else if String.eqb (gc_map_name req) "" then Some "This field may not be blank."
  else if (100 <? String.length (gc_map_name req))%nat then
    Some "Ensure this field has no more than 100 characters."
  else None.

Definition game_create_errors (req : GameCreate) : option string :=
  first_error
    [ declared_game_fields req;
      on_field GameCreateSerializer.validate_tick_duration_minutes
               (gc_tick_duration_minutes req);
      on_field GameCreateSerializer.validate_map_width (gc_map_width req);
      on_field GameCreateSerializer.validate_map_height (gc_map_height req) ].

Definition new_game (req : GameCreate) : GameRow :=
  {| g_name := gc_name req; g_status := waiting;
     g_max_players := default 32 (gc_max_players req);
     g_current_tick := 0; g_started_at := None |}.

(** [GameViewSet.create] with [GameCreateSerializer]. *)
Definition create_game (req : GameCreate) (s : Store)
  : response (positive * GameRow) * Store :=
  match game_create_errors req with
  | Some e => (BadRequest400 e, s)
  | None =>
    let pk := fresh (dom (games s)) in
    (Created201 (pk, new_game req),
     with_games s (<[pk := new_game req]> (games s)))
  end.

Definition started (game : GameRow) (now : Z) : GameRow :=
  {| g_name := g_name game; g_status := active;
     g_max_players := g_max_players game;
     g_current_tick := g_current_tick game; g_started_at := Some now |}.

(** [game.status != 'waiting'] *)
Definition not_waiting (st : GameStatus) : bool :=
  match st with waiting => false | _ => true end.

(** [GameViewSet.start]; the queryset is [Game.objects.all()]. *)
Definition start (pk : positive) (now : Z) (s : Store)
  : response (positive * GameRow) * Store :=
  match games s !! pk with
  | None => (NotFound404 detail_not_found, s)
  | Some game =>
    if not_waiting (g_status game) then
      (BadRequest400 "Game must be in 'waiting' status to start", s)
    else
      let game := started game now in
      (Ok200 (pk, game), with_games s (<[pk := game]> (games s)))
  end.

(** *** views.py: HexTileViewSet, the read side *)

(** The query string of the tile collection.  [None] is an absent
    parameter; an empty [terrain] is as good as absent. *)
Record TileQuery := {
  tq_game : option Z;
  tq_terrain : option string;
  tq_q : option Z;
  tq_r : option Z
}.

(** [HexTileViewSet.get_queryset] as the membership test of a row. *)
Definition tile_in_queryset (qp : TileQuery) (t : HexTile) : bool :=
  filter_eq (tq_game qp) (Z.pos (t_game t))
  && match tq_terrain qp with
     | Some terrain =>
       negb (Py.truthy (Py.PStr terrain)) || String.eqb (t_terrain_type t) terrain
     | None => true
     end
  && match tq_q qp, tq_r qp with
     | Some q, Some r => (t_q t =? q) && (t_r t =? r)
     | _, _ => true
     end.

(** [HexTileViewSet.list]: the rows of the queryset, in table order. *)
Definition list_tiles (qp : TileQuery) (s : Store) : list HexTile :=
  List.filter (tile_in_queryset qp) (hex_tiles s).

(** The filter of [nearby]. *)
Definition in_box (game q r radius : Z) (t : HexTile) : bool :=
  (Z.pos (t_game t) =? game)
  && (t_q t >=? q - radius) && (t_q t <=? q + radius)
  && (t_r t >=? r - radius) && (t_r t <=? r + radius).

(** [HexTileViewSet.nearby], on the query parameters as they come in,
    [None] being an absent one.  [radius] is read by [int] before
    anything is checked, and a text [int] refuses ends the request with
    [ValueError], a 500; so do [q] and [r] after the check for missing
    parameters, and so does [game_id] when the filter reads it as a
    key. *)
Definition nearby (game_id q r radius : option Py.text) (s : Store)
  : response (list HexTile) :=
  match from_option Py.int (Some 1) radius with
  | None => ServerError500
  | Some radius =>
    if negb (from_option Py.nonempty false game_id
             && bool_decide (q <> None) && bool_decide (r <> None)) then
      BadRequest400 "game, q, and r parameters are required"
    else
      match q ≫= Py.int with
      | None => ServerError500
      | Some q =>
        match r ≫= Py.int with
        | None => ServerError500
        | Some r =>
          match game_id ≫= Py.int with
          | None => ServerError500
          | Some game =>
            Ok200 (List.filter (in_box game q r radius) (hex_tiles s))
          end
        end
      end
  end.

(** *** views.py: CharacterViewSet.create *)

Record CharacterCreate := {
  cc_game : positive;
  cc_owner : positive;
  cc_character_type : string;
  cc_name : string;
  cc_position_q : Z;
  cc_position_r : Z;
  cc_max_health : option Z;
  cc_max_stamina : option Z;
  cc_max_movement_points : option Z;
  cc_attributes : option Py.value
}.

(** The checks derived from the columns of [Character]:
    [character_type] and [name] are not [blank=True], with [max_length]
    50 and 100. *)
Definition declared_character_fields (req : CharacterCreate) : option string :=
  if String.eqb (cc_character_type req) "" then Some "This field may not be blank."
  else if (50 <? String.length (cc_character_type req))%nat then
    Some "Ensure this field has no more than 50 characters."
  else if String.eqb (cc_name req) "" then Some "This field may not be blank."
  else if (100 <? String.length (cc_name req))%nat then
    Some "Ensure this field has no more than 100 characters."
  else None.

(** [CharacterCreateSerializer.create]: the row that is inserted, the
    columns the request does not carry at their defaults. *)
Definition new_character (req : CharacterCreate) (now : Z) : Character :=
  {| c_game := cc_game req; c_owner := cc_owner req; c_name := cc_name req;
     c_health := default 100 (cc_max_health req);
     c_max_health := default 100 (cc_max_health req);
     c_stamina := default 100 (cc_max_stamina req);
     c_max_stamina := default 100 (cc_max_stamina req);
     c_experience := 0; c_level := 1;
     c_position_q := cc_position_q req; c_position_r := cc_position_r req;
     c_status := idle;
     c_movement_path := Py.PList [];
     c_movement_points := default 3 (cc_max_movement_points req);
     c_inventory := [];
     c_current_orders := Py.PDict [];
     c_in_combat := false; c_combat_id := "";
     c_attributes := default (Py.PDict []) (cc_attributes req);
     c_skills := Py.PList [];
     c_updated_at := now; c_died_at := None |}.

(** [CharacterViewSet.create] with [CharacterCreateSerializer]. *)
Definition create_character (req : CharacterCreate) (now : Z) (s : Store)
  : response body * Store :=
  match declared_character_fields req with
  | Some e => (BadRequest400 e, s)
  | None =>
    match games s !! cc_game req, players s !! cc_owner req with
    | Some _, Some owner =>
      match CharacterCreateSerializer.validate
              (hex_tiles s) (cc_game req) owner
              (cc_position_q req) (cc_position_r req) with
      | Some e => (BadRequest400 e, s)
      | None =>
        let pk := fresh (dom (characters s)) in
        let character := new_character req now in
        (Created201 (CharacterBody pk character),
         with_characters s (<[pk := character]> (characters s)))
      end
    | _, _ => (BadRequest400 "Invalid pk - object does not exist.", s)
    end
  end.

(** *** views.py: MapItemViewSet *)

Record MapItemCreate := {
  mc_game : positive;
  mc_item_type : string;
  mc_item_id : string;
  mc_position_q : Z;
  mc_position_r : Z;
  mc_quantity : option Z;
  mc_rarity : option string;
  mc_is_locked : option bool;
  mc_spawned_at_tick : Z
}.

(** [MapItem.ITEM_RARITY_CHOICES] *)
Definition item_rarity_choices : list string :=
  ["common"; "uncommon"; "rare"; "epic"; "legendary"].

(** The check derived from a [CharField] column without [blank=True]. *)
Definition declared_text (max_length : nat) (value : string) : option string :=
  if String.eqb value "" then Some "This field may not be blank."
  else if (max_length <? String.length value)%nat then
    Some "Ensure this field has no more than max_length characters."
  else None.

(** The check derived from the [choices] of [MapItem.rarity]. *)
Definition declared_item_rarity (value : string) : option string :=
  if negb (Py.mem value item_rarity_choices) then Some "Not a valid choice."
  else None.

(** The checks derived from the columns of [MapItem], each on a field
    the request carries. *)
Definition declared_map_item_fields (item_type item_id rarity : option string)
  : option string :=
  first_error [ on_field (declared_text 50) item_type;
                on_field (declared_text 100) item_id;
                on_field declared_item_rarity rarity ].

Definition new_map_item (req : MapItemCreate) : MapItem :=
  {| m_game := mc_game req; m_item_type := mc_item_type req;
     m_item_id := mc_item_id req;
     m_position_q := mc_position_q req; m_position_r := mc_position_r req;
     m_quantity := default 1 (mc_quantity req);
     m_rarity := default "common" (mc_rarity req);
     m_is_available := true;
     m_is_locked := default false (mc_is_locked req);
     m_spawned_at_tick := mc_spawned_at_tick req;
     m_collected_at := None; m_collected_by := None |}.

(** [MapItemViewSet.create] with [MapItemCreateSerializer]. *)
Definition spawn_item (req : MapItemCreate) (s : Store)
  : response (positive * MapItem) * Store :=
  match declared_map_item_fields (Some (mc_item_type req)) (Some (mc_item_id req))
                                 (mc_rarity req) with
  | Some e => (BadRequest400 e, s)
  | None =>
    match games s !! mc_game req with
    | None => (BadRequest400 "Invalid pk - object does not exist.", s)
    | Some _ =>
      match MapItemCreateSerializer.validate
              (hex_tiles s) (mc_game req)
              (mc_position_q req) (mc_position_r req) with
      | Some e => (BadRequest400 e, s)
      | None =>
        let pk := fresh (dom (map_items s)) in
        (Created201 (pk, new_map_item req),
         with_map_items s (<[pk := new_map_item req]> (map_items s)))
      end
    end
  end.

Record MapItemQuery := {
  mq_game : option Z;
  mq_available : option bool;
  mq_q : option Z;
  mq_r : option Z
}.

Definition no_map_item_query : MapItemQuery :=
  {| mq_game := None; mq_available := None; mq_q := None; mq_r := None |}.

(** [MapItemViewSet.get_queryset]; [mq_available] is the value of
    [available.lower() == 'true']. *)
Definition map_item_in_queryset (qp : MapItemQuery) (m : MapItem) : bool :=
  filter_eq (mq_game qp) (Z.pos (m_game m))
  && match mq_available qp with
     | Some a => Bool.eqb (m_is_available m) a
     | None => true
     end
  && match mq_q qp, mq_r qp with
     | Some q, Some r => (m_position_q m =? q) && (m_position_r m =? r)
     | _, _ => true
     end.

Definition get_map_item (qp : MapItemQuery) (s : Store) (pk : positive)
  : option MapItem :=
  match map_items s !! pk with
  | Some m => if map_item_in_queryset qp m then Some m else None
  | None => None
  end.

(** The validated body of a map item update, over the writable fields
    of [MapItemSerializer] that the model keeps: [collected_at] and
    [collected_by] are read-only, [is_available] is not. *)
Record MapItemUpdate := {
  mu_game : option positive;
  mu_item_type : option string;
  mu_item_id : option string;
  mu_position_q : option Z;
  mu_position_r : option Z;
  mu_quantity : option Z;
  mu_rarity : option string;
  mu_is_available : option bool;
  mu_is_locked : option bool;
  mu_spawned_at_tick : option Z
}.

(** The columns without a default, which a full update has to carry. *)
Definition map_item_required_present (d : MapItemUpdate) : bool :=
  bool_decide (is_Some (mu_game d)) && bool_decide (is_Some (mu_item_type d))
  && bool_decide (is_Some (mu_item_id d))
  && bool_decide (is_Some (mu_position_q d))
  && bool_decide (is_Some (mu_position_r d))
  && bool_decide (is_Some (mu_spawned_at_tick d)).

Definition map_item_updated (m : MapItem) (d : MapItemUpdate) : MapItem :=
  {| m_game := default (m_game m) (mu_game d);
     m_item_type := default (m_item_type m) (mu_item_type d);
     m_item_id := default (m_item_id m) (mu_item_id d);
     m_position_q := default (m_position_q m) (mu_position_q d);
     m_position_r := default (m_position_r m) (mu_position_r d);
     m_quantity := default (m_quantity m) (mu_quantity d);
     m_rarity := default (m_rarity m) (mu_rarity d);
     m_is_available := default (m_is_available m) (mu_is_available d);
     m_is_locked := default (m_is_locked m) (mu_is_locked d);
     m_spawned_at_tick := default (m_spawned_at_tick m) (mu_spawned_at_tick d);
     m_collected_at := m_collected_at m;
     m_collected_by := m_collected_by m |}.

(** The related field of [game] refuses a key no game has. *)
Definition unknown_game (s : Store) (game : option positive) : bool :=
  match game with
  | Some g => match games s !! g with Some _ => false | None => true end
  | None => false
  end.

(** [MapItemViewSet.update] and [partial_update] with
    [MapItemSerializer], which has no [validate]. *)
Definition update_item (partial : bool) (qp : MapItemQuery) (pk : positive)
    (d : MapItemUpdate) (s : Store) : response (positive * MapItem) * Store :=
  match get_map_item qp s pk with
  | None => (NotFound404 detail_not_found, s)
  | Some instance =>
    if negb partial && negb (map_item_required_present d) then
      (BadRequest400 "This field is required.", s)
    else
      match declared_map_item_fields (mu_item_type d) (mu_item_id d)
                                     (mu_rarity d) with
      | Some e => (BadRequest400 e, s)
      | None =>
        if unknown_game s (mu_game d)
        then (BadRequest400 "Invalid pk - object does not exist.", s)
        else
          let instance := map_item_updated instance d in
          (Ok200 (pk, instance),
           with_map_items s (<[pk := instance]> (map_items s)))
      end
  end.

(** *** views.py: InteractableViewSet.create *)

Record InteractableCreate := {
  ic_game : positive;
  ic_interactable_type : string;
  ic_interactable_id : string;
  ic_name : string;
  ic_position_q : Z;
  ic_position_r : Z;
  ic_max_uses : option Z;
  ic_cooldown_ticks : option Z
}.

(** [Interactable.INTERACTABLE_TYPE_CHOICES] *)
Definition interactable_type_choices : list string :=
  ["chest"; "door"; "npc"; "portal"; "shrine"; "trap"; "resource_node"; "puzzle"].

Definition declared_interactable_fields (req : InteractableCreate)
  : option string :=
  if negb (Py.mem (ic_interactable_type req) interactable_type_choices) then
    Some "Not a valid choice."
  else if String.eqb (ic_interactable_id req) "" then
    Some "This field may not be blank."
  else if (100 <? String.length (ic_interactable_id req))%nat then
    Some "Ensure this field has no more than 100 characters."
  else if String.eqb (ic_name req) "" then Some "This field may not be blank."
  else if (100 <? String.length (ic_name req))%nat then
    Some "Ensure this field has no more than 100 characters."
  else None.

Definition new_interactable (req : InteractableCreate) (now : Z) : Interactable :=
  {| i_game := ic_game req; i_name := ic_name req;
     i_position_q := ic_position_q req; i_position_r := ic_position_r req;
     i_is_active := true;
     i_max_uses := default 1 (ic_max_uses req);
     i_current_uses := 0;
     i_cooldown_ticks := default 0 (ic_cooldown_ticks req);
     i_last_used_tick := None;
     i_interactions := [];
     i_updated_at := now |}.

(** [InteractableViewSet.create] with [InteractableCreateSerializer]. *)
Definition create_interactable (req : InteractableCreate) (now : Z) (s : Store)
  : response (positive * Interactable) * Store :=
  match declared_interactable_fields req with
  | Some e => (BadRequest400 e, s)
  | None =>
    match games s !! ic_game req with
    | None => (BadRequest400 "Invalid pk - object does not exist.", s)
    | Some _ =>
      match InteractableCreateSerializer.validate
              (hex_tiles s) (ic_game req)
              (ic_position_q req) (ic_position_r req) with
      | Some e => (BadRequest400 e, s)
      | None =>
        let pk := fresh (dom (interactables s)) in
        let interactable := new_interactable req now in
        (Created201 (pk, interactable),
         with_interactables s (<[pk := interactable]> (interactables s)))
      end
    end
  end.

(** *** The whole API, one request after the other *)

Inductive ApiRequest : Type :=
| Core (rq : Request)
| CreateGame (req : GameCreate)
| Start (pk : positive)
| CreateCharacter (req : CharacterCreate)
| SpawnItem (req : MapItemCreate)
| UpdateItem (partial : bool) (qp : MapItemQuery) (pk : positive)
             (d : MapItemUpdate)
| CreateInteractable (req : InteractableCreate).

(** The status of an answer and the store it leaves. *)
Definition outcome {B : Type} (r : response B * Store) : Z * Store :=
  (status_code (fst r), snd r).

Definition api_serve (now : Z) (rq : ApiRequest) (s : Store) : Z * Store :=
  match rq with
  | Core rq => outcome (serve now rq s)
  | CreateGame req => outcome (create_game req s)
  | Start pk => outcome (start pk now s)
  | CreateCharacter req => outcome (create_character req now s)
  | SpawnItem req => outcome (spawn_item req s)
  | UpdateItem partial qp pk d => outcome (update_item partial qp pk d s)
  | CreateInteractable req => outcome (create_interactable req now s)
  end.

Fixpoint api_run (rqs : list (Z * ApiRequest)) (s : Store) : list Z * Store :=
  match rqs with
  | [] => ([], s)
  | (now, rq) :: rest =>
    let (code, s1) := api_serve now rq s in
    let (codes, s2) := api_run rest s1 in
    (code :: codes, s2)
  end.

(** ** What the specification says, in its own words *)

(** [can_use] as the specification has it: false at the use limit;
    otherwise false when [last_used_tick] is set and fewer than
    [cooldown_ticks] ticks have passed; otherwise [is_active]. *)
Definition can_use_as_specified (i : Interactable) (current_tick : Z) : bool :=
  if (i_max_uses i >? 0) && (i_current_uses i >=? i_max_uses i) then false
  else
    match i_last_used_tick i with
    | Some last_used_tick =>
      if current_tick - last_used_tick <? i_cooldown_ticks i then false
      else i_is_active i
    | None => i_is_active i
    end.

(** The form [#RRGGBB]: a [#] and six hexadecimal digits. *)
Definition hex_digit (c : ascii) : bool :=
  existsb (Ascii.eqb c) (list_ascii_of_string "0123456789abcdefABCDEF").

Definition rrggbb (value : string) : bool :=
  match value with
  | String c digits =>
    Ascii.eqb c "#" && Nat.eqb (String.length digits) 6
    && forallb hex_digit (list_ascii_of_string digits)
  | EmptyString => false
  end.

(** A JSON number. *)
Definition json_number (v : Py.value) : bool :=
  match v with Py.PInt _ | Py.PFloat _ => true | _ => false end.

(** The catalogue rules on the fields a request carries, for a notion
    [number] of numeric value; a full create or update ([partial =
    false]) carries [name] and [rarity]. *)
Definition catalogue_rules (number : Py.value -> bool) (partial : bool)
    (r : Items.Request) : Prop :=
  (partial = false -> is_Some (Items.name r) /\ is_Some (Items.rarity r))
  /\ (forall n, Items.name r = Some n -> n <> "")
  /\ (forall x, Items.rarity r = Some x -> In x ["common"; "rare"; "legendary"])
  /\ (forall z, Items.stack_size r = Some z -> 1 <= z <= 9999)
  /\ (forall z, Items.cooldown r = Some z -> 0 <= z)
  /\ (forall z, Items.upgrade_level r = Some z -> 0 <= z <= 100)
  /\ (forall q, Items.drop_rate r = Some q -> (0 <= q)%Q /\ (q <= 1)%Q)
  /\ (forall z, Items.durability r = Some (Some z) -> 0 <= z)
  /\ (forall v, Items.stat_modifiers r = Some v ->
        v = Py.PNone
        \/ exists items, v = Py.PDict items
                         /\ Forall (fun kv => number (snd kv) = true) items).

(** ** A small world to run the views in *)

Definition sample_isoformat (t : Z) : string := "1970-01-01T00:00:00+00:00".

(** Reading a key off an integer and off nothing else. *)
Definition int_key (v : Py.value) : option Z :=
  match v with Py.PInt z => Some z | _ => None end.

Definition sample_game : GameRow :=
  {| g_name := "Alpha"; g_status := waiting; g_max_players := 2;
     g_current_tick := 12; g_started_at := None |}.

Definition sample_tile : HexTile :=
  {| t_game := 1; t_q := 0; t_r := 0; t_terrain_type := "plains";
     t_elevation := 0; t_is_passable := true |}.

Definition sample_character (st : CharacterStatus) : Character :=
  {| c_game := 1; c_owner := 1; c_name := "Scout";
     c_health := 100; c_max_health := 100;
     c_stamina := 100; c_max_stamina := 100;
     c_experience := 0; c_level := 1;
     c_position_q := 0; c_position_r := 0; c_status := st;
     c_movement_path := Py.PList []; c_movement_points := 3;
     c_inventory := []; c_current_orders := Py.PDict [];
     c_in_combat := false; c_combat_id := "";
     c_attributes := Py.PDict []; c_skills := Py.PList [];
     c_updated_at := 0; c_died_at := None |}.

Definition sample_item : MapItem :=
  {| m_game := 1; m_item_type := "potion"; m_item_id := "potion-1";
     m_position_q := 0; m_position_r := 0; m_quantity := 1;
     m_rarity := "common"; m_is_available := true; m_is_locked := false;
     m_spawned_at_tick := 0; m_collected_at := None; m_collected_by := None |}.

Definition sample_interactable (current_uses : Z) (last_used_tick : option Z)
  : Interactable :=
  {| i_game := 1; i_name := "Chest"; i_position_q := 0; i_position_r := 0;
     i_is_active := true; i_max_uses := 2; i_current_uses := current_uses;
     i_cooldown_ticks := 5; i_last_used_tick := last_used_tick;
     i_interactions := []; i_updated_at := 0 |}.

Definition sample_store (st : CharacterStatus) (i : Interactable) : Store :=
  {| games := {[ 1%positive := sample_game ]};
     players := ∅;
     hex_tiles := [sample_tile];
     characters := {[ 1%positive := sample_character st ]};
     map_items := {[ 1%positive := sample_item ]};
     interactables := {[ 1%positive := i ]} |}.

Definition sample_attempt : Attempt :=
  {| a_query := no_interactable_query; a_character_id := Py.PInt 1; a_now := 7 |}.

Definition sample_join (color : string) : JoinRequest :=
  {| j_game := 1; j_player_name := "Alice"; j_color := Some color;
     j_avatar := None |}.

Definition sample_tile_request : TileRequest :=
  {| tr_game := 1; tr_q := 0; tr_r := 0; tr_terrain_type := Some "plains";
     tr_elevation := None; tr_is_passable := Some true |}.

Definition sample_game_create : GameCreate :=
  {| gc_name := "Beta"; gc_max_players := Some 0;
     gc_tick_duration_minutes := Some 15; gc_map_name := "islands";
     gc_map_width := Some 50; gc_map_height := Some 50 |}.

Definition sample_spawn : MapItemCreate :=
  {| mc_game := 1; mc_item_type := "potion"; mc_item_id := "potion-2";
     mc_position_q := 0; mc_position_r := 0; mc_quantity := Some 3;
     mc_rarity := None; mc_is_locked := None; mc_spawned_at_tick := 12 |}.

Definition sample_catalogue_item (active : bool) : ItemViewSet.Item :=
  {| ItemViewSet.name := "Sword"; ItemViewSet.type := "weapon";
     ItemViewSet.rarity := "rare"; ItemViewSet.category := Some "equipment";
     ItemViewSet.sub_category := None; ItemViewSet.is_active := active;
     ItemViewSet.updated_at := 0 |}.

(** The query string [?is_active=true] or [?is_active=false]. *)
Definition only_active (a : bool) : ItemViewSet.Query :=
  {| ItemViewSet.q_type := None; ItemViewSet.q_rarity := None;
     ItemViewSet.q_category := None; ItemViewSet.q_sub_category := None;
     ItemViewSet.q_is_active := Some a; ItemViewSet.q_search := None |}.

Definition sample_item_request (modifiers : Py.value) : Items.Request :=
  {| Items.name := Some "Sword"; Items.type := Some "weapon";
     Items.rarity := Some "common";
     Items.stack_size := Some 1; Items.cooldown := Some 0;
     Items.upgrade_level := Some 0; Items.drop_rate := Some (1 # 2)%Q;
     Items.durability := Some (Some 10);
     Items.stat_modifiers := Some modifiers |}.

(** ** The predicates of the statements *)



(** The value [character_id] names, as key [k], the character [c] of the
    table [cs], which is in the game and at the position of [i]. *)
Definition colocated (cs : gmap positive Character) (i : Interactable)
    (character_id : Py.value) (k : positive) (c : Character) : Prop :=
  Py.truthy character_id = true
  /\ to_pk character_id = Some (Z.pos k)
  /\ cs !! k = Some c
  /\ c_game c = i_game i
  /\ c_position_q c = i_position_q i
  /\ c_position_r c = i_position_r i.

(** The use limit of [i] is reached. *)
Definition exhausted (i : Interactable) : bool :=
  (i_max_uses i >? 0) && (i_current_uses i >=? i_max_uses i).

Definition maximum_times : string := "Interactable has been used maximum times".

(** The attempt reaches [i] and is made by a character at its place. *)
Definition valid_attempt (cs : gmap positive Character) (i : Interactable)
    (a : Attempt) : Prop :=
  interactable_in_queryset (a_query a) i = true
  /\ exists k c, colocated cs i (a_character_id a) k c.


(** Every player is in a game of the store, and no game has more active
    players than its [max_players], or than none when that is
    negative. *)
Definition within_capacity (s : Store) : Prop :=
  (forall k p, players s !! k = Some p -> is_Some (games s !! p_game p))
  /\ (forall pk g, games s !! pk = Some g ->
        PlayerCreateSerializer.active_player_count (players s) pk
        <= Z.max 0 (g_max_players g)).

(** The game [pk] exists and takes at most [m] players. *)
Definition capped (s : Store) (pk : positive) (m : Z) : Prop :=
  exists g, games s !! pk = Some g /\ g_max_players g = m.

(** The rows of a list answer; none when the answer is an error. *)
Definition answered {B : Type} (r : response (list B)) : list B :=
  match r with Ok200 l => l | _ => [] end.

(** The distance between two hexes in axial coordinates, the "proper
    hex distance" the comment in [nearby] speaks of. *)
Definition hex_distance (q1 r1 q2 r2 : Z) : Z :=
  (Z.abs (q1 - q2) + Z.abs (q1 + r1 - q2 - r2) + Z.abs (r1 - r2)) / 2.

(** The query string [?game=g&q=q&r=r] of the tile collection. *)
Definition tile_lookup (game : positive) (q r : Z) : TileQuery :=
  {| tq_game := Some (Z.pos game); tq_terrain := None;
     tq_q := Some q; tq_r := Some r |}.

(** What a request writes a character row back as: the row after a
    move, after a loot, or after an update that has passed validation. *)
Inductive rewritten (now : Z) (c : Character) : Character -> Prop :=
| rewritten_move q r : rewritten now c (moved c q r now)
| rewritten_loot entry : rewritten now c (looted c entry now)
| rewritten_update partial d :
    update_errors partial c d = None -> rewritten now c (updated c d now).

(** No character has more health than [max_health] or more stamina
    than [max_stamina]. *)
Definition healthy (s : Store) : Prop :=
  forall pk c, characters s !! pk = Some c ->
    c_health c <= c_max_health c /\ c_stamina c <= c_max_stamina c.

(** No character has a [died_at]. *)
Definition no_death_recorded (s : Store) : Prop :=
  forall pk c, characters s !! pk = Some c -> c_died_at c = None.

(** The body [{"position_q": q, "position_r": r}] of a partial update. *)
Definition reposition (q r : Z) : CharacterUpdate :=
  {| u_health := None; u_stamina := None; u_experience := None;
     u_level := None; u_position_q := Some q; u_position_r := Some r;
     u_status := None; u_movement_path := None; u_movement_points := None;
     u_inventory := None; u_current_orders := None; u_in_combat := None;
     u_combat_id := None; u_attributes := None; u_skills := None |}.

(** The body [{"status": "dead"}] of a partial update. *)
Definition kill : CharacterUpdate :=
  {| u_health := None; u_stamina := None; u_experience := None;
     u_level := None; u_position_q := None; u_position_r := None;
     u_status := Some dead; u_movement_path := None; u_movement_points := None;
     u_inventory := None; u_current_orders := None; u_in_combat := None;
     u_combat_id := None; u_attributes := None; u_skills := None |}.

(** The body [{"is_available": true}] of a partial update of a map
    item. *)
Definition make_available : MapItemUpdate :=
  {| mu_game := None; mu_item_type := None; mu_item_id := None;
     mu_position_q := None; mu_position_r := None; mu_quantity := None;
     mu_rarity := None; mu_is_available := Some true; mu_is_locked := None;
     mu_spawned_at_tick := None |}.

(** How many uses an interactable has left: [None] when it has no
    limit ([max_uses] is not positive). *)
Definition uses_left (i : Interactable) : option nat :=
  if i_max_uses i >? 0 then Some (Z.to_nat (i_max_uses i - i_current_uses i))
  else None.

(** The statuses of [n] attempts in a row when [left] uses are left. *)
Definition statuses (left : option nat) (n : nat) : list Z :=
  match left with
  | None => replicate n 200
  | Some k => replicate (Nat.min n k) 200 ++ replicate (n - k) 400
  end.

(** What a row of an interactable may have become: the same object at
    the same place, used some more times, with one more record in its
    history for each further use, and not past its limit if it was
    within it. *)
Definition evolved (i i' : Interactable) : Prop :=
  i_game i' = i_game i /\ i_name i' = i_name i
  /\ i_position_q i' = i_position_q i /\ i_position_r i' = i_position_r i
  /\ i_is_active i' = i_is_active i /\ i_max_uses i' = i_max_uses i
  /\ i_cooldown_ticks i' = i_cooldown_ticks i
  /\ i_current_uses i <= i_current_uses i'
  /\ Z.of_nat (length (i_interactions i')) - i_current_uses i'
     = Z.of_nat (length (i_interactions i)) - i_current_uses i
  /\ (0 < i_max_uses i -> i_current_uses i <= i_max_uses i ->
      i_current_uses i' <= i_max_uses i).

(** ** Properties *)

(** *** Tiles *)

Lemma tile_at_key g q r t : tile_at g q r t = true <-> tile_key t = (g, q, r).
Proof.
  unfold tile_at, tile_key.
  rewrite !andb_true_iff, Pos.eqb_eq, !Z.eqb_eq.
  split; [intros [[-> ->] ->]; reflexivity | intros [= -> -> ->]; auto].
Qed.

Lemma first_filter_elem {A : Type} (f : A -> bool) (l : list A) (x : A) :
  first (List.filter f l) = Some x -> x ∈ l /\ f x = true.
Proof.
  induction l as [|a l IH]; simpl; [discriminate|].
  destruct (f a) eqn:Hfa; simpl.
  - intros [= ->]. split; [left | assumption].
  - intros H. destruct (IH H) as [Hin Hf]. split; [by right | assumption].
Qed.

Lemma first_tiles_filter_unique ts g q r t :
  tiles_unique ts -> t ∈ ts -> tile_key t = (g, q, r) ->
  first (tiles_filter g q r ts) = Some t.
Proof.
  unfold tiles_unique, tiles_filter.
  induction ts as [|a ts IH]; simpl; intros Hnd Hin Hkey.
  - inversion Hin.
  - apply NoDup_cons in Hnd as [Hfresh Hnd].
    destruct (tile_at g q r a) eqn:Ha; simpl.
    + apply tile_at_key in Ha.
      inversion Hin as [|? ? ? Hin']; subst; [reflexivity|].
      exfalso. apply Hfresh. rewrite Ha, <- Hkey.
      apply list_elem_of_fmap. exists t. auto.
    + inversion Hin as [|? ? ? Hin']; subst.
      * apply tile_at_key in Hkey. congruence.
      * apply IH; assumption.
Qed.

(** *** C1: move *)

Lemma moved_fields c q r now :
  let c' := moved c q r now in
  c_position_q c' = q /\ c_position_r c' = r /\ c_status c' = idle
  /\ c_game c' = c_game c /\ c_owner c' = c_owner c /\ c_name c' = c_name c
  /\ c_health c' = c_health c /\ c_max_health c' = c_max_health c
  /\ c_stamina c' = c_stamina c /\ c_max_stamina c' = c_max_stamina c
  /\ c_experience c' = c_experience c /\ c_level c' = c_level c
  /\ c_movement_path c' = c_movement_path c
  /\ c_movement_points c' = c_movement_points c
  /\ c_inventory c' = c_inventory c
  /\ c_current_orders c' = c_current_orders c
  /\ c_in_combat c' = c_in_combat c /\ c_combat_id c' = c_combat_id c
  /\ c_attributes c' = c_attributes c /\ c_skills c' = c_skills c
  /\ c_died_at c' = c_died_at c.
Proof. simpl. repeat split. Qed.

(** C1, as amended.  For a character the request resolves (one that is
    not dead and passes the query-string filters) in a store whose tiles
    are unique per [(game, q, r)], and for every coordinate pair: the
    move answers 200 exactly when a passable tile of the character's game
    lies at [(q, r)]; then the row of the character is the old one with
    position [(q, r)], status idle and a fresh [updated_at], and nothing
    else in the store changes; otherwise the store is unchanged. *)
Theorem move_iff_passable_tile qp pk c q r now s :
  get_character qp s pk = Some c ->
  tiles_unique (hex_tiles s) ->
  let resp := fst (move qp pk (Some q) (Some r) now s) in
  let s' := snd (move qp pk (Some q) (Some r) now s) in
  (status_code resp = 200 <-> passable_tile_at (hex_tiles s) (c_game c) q r)
  /\ (status_code resp = 200 ->
      resp = Ok200 (CharacterBody pk (moved c q r now))
      /\ s' = with_characters s (<[pk := moved c q r now]> (characters s))
      /\ characters s' !! pk = Some (moved c q r now)
      /\ c_position_q (moved c q r now) = q
      /\ c_position_r (moved c q r now) = r
      /\ c_status (moved c q r now) = idle)
  /\ (status_code resp <> 200 -> s' = s).
Proof.
  intros Hget Hnd. unfold move. rewrite Hget.
  destruct (first (tiles_filter (c_game c) q r (hex_tiles s))) as [tile|] eqn:Hfirst.
  - pose proof (first_filter_elem _ _ _ Hfirst) as [Hin Hat].
    apply tile_at_key in Hat.
    destruct (t_is_passable tile) eqn:Hpass; simpl.
    + repeat split; try done.
      * intros _. exists tile. auto.
      * apply lookup_insert_eq.
    + repeat split; try done.
      intros (t & Ht & Hk & Hp).
      rewrite (first_tiles_filter_unique _ _ _ _ t Hnd Ht Hk) in Hfirst.
      congruence.
  - simpl. repeat split; try done.
    intros (t & Ht & Hk & Hp).
    rewrite (first_tiles_filter_unique _ _ _ _ t Hnd Ht Hk) in Hfirst.
    discriminate.
Qed.

(** *** C8: dead characters *)

Lemma get_character_some qp s pk c :
  get_character qp s pk = Some c ->
  characters s !! pk = Some c /\ c_status c <> dead.
Proof.
  unfold get_character, character_in_queryset.
  destruct (characters s !! pk) as [c'|]; [|discriminate].
  destruct (c_status c') eqn:Hst; simpl; try discriminate;
    intros H; case_match; try discriminate;
    injection H as <-; split; congruence.
Qed.

Lemma get_character_no_query s pk c :
  characters s !! pk = Some c -> c_status c <> dead ->
  get_character no_character_query s pk = Some c.
Proof.
  intros Hrow Hst. unfold get_character, character_in_queryset. rewrite Hrow.
  destruct (c_status c); simpl; congruence.
Qed.

Lemma get_character_dead qp s pk c :
  characters s !! pk = Some c -> c_status c = dead ->
  get_character qp s pk = None.
Proof.
  intros Hrow Hst. destruct (get_character qp s pk) as [c'|] eqn:Hget; [|done].
  apply get_character_some in Hget as [Hrow' Hst']. congruence.
Qed.

(** A request leaves the row of a dead character as it is. *)
Lemma serve_keeps_dead now rq s pk c :
  characters s !! pk = Some c -> c_status c = dead ->
  characters (snd (serve now rq s)) !! pk = Some c.
Proof.
  intros Hrow Hst.
  assert (Hother : forall qp pk' c', get_character qp s pk' = Some c' -> pk' <> pk).
  { intros qp pk' c' Hget ->.
    rewrite (get_character_dead qp s pk c Hrow Hst) in Hget. discriminate. }
  destruct rq; simpl;
    unfold retrieve, update, destroy, move, loot, interact, join, create_tile;
    repeat case_match; simpl; try assumption;
    try (rewrite lookup_insert_ne; [assumption | eapply Hother; eassumption]).
  rewrite lookup_delete_ne; [assumption | eapply Hother; eassumption].
Qed.

Lemma run_keeps_dead rqs s pk c :
  characters s !! pk = Some c -> c_status c = dead ->
  characters (snd (run rqs s)) !! pk = Some c.
Proof.
  revert s. induction rqs as [|[now rq] rqs IH]; intros s Hrow Hst; [assumption|].
  simpl. pose proof (serve_keeps_dead now rq s pk c Hrow Hst) as Hstep.
  destruct (serve now rq s) as [resp s1]. simpl in Hstep.
  specialize (IH s1 Hstep Hst). destruct (run rqs s1). assumption.
Qed.

(** C8.  On a character whose status is dead, retrieve, update,
    partial update, move and loot (and destroy) answer 404 and leave the
    store as it is, whatever the query string and the body; and after any
    run of requests the row of the character is still the same row, so
    that it is still dead. *)
Theorem dead_character_not_found s pk c :
  characters s !! pk = Some c -> c_status c = dead ->
  (forall qp, retrieve qp pk s = (NotFound404 detail_not_found, s))
  /\ (forall partial qp d now,
        update partial qp pk d now s = (NotFound404 detail_not_found, s))
  /\ (forall qp q r now, move qp pk q r now s = (NotFound404 detail_not_found, s))
  /\ (forall qp item_id now,
        loot qp pk item_id now s = (NotFound404 detail_not_found, s))
  /\ (forall qp, destroy qp pk s = (NotFound404 detail_not_found, s))
  /\ (forall rqs, characters (snd (run rqs s)) !! pk = Some c).
Proof.
  intros Hrow Hst.
  repeat split; intros;
    try (unfold retrieve, update, move, loot, destroy;
         rewrite (get_character_dead _ s pk c Hrow Hst); reflexivity).
  apply run_keeps_dead; assumption.
Qed.

(** *** C10: a missing or falsy identifier *)

(** C10, as amended.  When the character of a loot request resolves and
    its [item_id] is absent or falsy, the answer is the 400 "item_id is
    required" and the store is unchanged; when the interactable of an
    interact request resolves and its [character_id] is absent or falsy,
    the answer is the 400 "character_id is required" and the store is
    unchanged.  Neither answer depends on the item or character tables
    or on how a value is read as a key. *)
Theorem falsy_id_is_required :
  (forall qp pk c item_id now s,
      get_character qp s pk = Some c -> Py.truthy item_id = false ->
      loot qp pk item_id now s = (BadRequest400 "item_id is required", s))
  /\ (forall qp pk i character_id now s,
        get_interactable qp s pk = Some i -> Py.truthy character_id = false ->
        interact qp pk character_id now s
        = (BadRequest400 "character_id is required", s)).
Proof.
  split; intros * Hget Hfalsy.
  - unfold loot. rewrite Hget, Hfalsy. reflexivity.
  - unfold interact. rewrite Hget, Hfalsy. reflexivity.
Qed.

(** *** C2: loot *)

(** A non-zero integer is truthy and is read as itself. *)
Lemma integer_id_is_key z :
  z <> 0 -> Py.truthy (Py.PInt z) = true /\ to_pk (Py.PInt z) = Some z.
Proof.
  intros Hz. split; [|apply to_pk_int].
  simpl. by destruct (Z.eqb_spec z 0).
Qed.

Lemma lootable_by_spec c m :
  lootable_by c m = true <->
  m_game m = c_game c /\ m_position_q m = c_position_q c
  /\ m_position_r m = c_position_r c /\ m_is_available m = true.
Proof.
  unfold lootable_by. rewrite !andb_true_iff, Pos.eqb_eq, !Z.eqb_eq. tauto.
Qed.







Lemma loot_missing qp pk item_id k now s c :
  get_character qp s pk = Some c ->
  Py.truthy item_id = true -> to_pk item_id = Some k ->
  (forall m, row (map_items s) k = Some m -> lootable_by c m = false) ->
  loot qp pk item_id now s = (NotFound404 "Item not found at this position", s).
Proof.
  intros Hget Htruthy Hpk Hno. unfold loot. rewrite Hget, Htruthy, Hpk. simpl.
  destruct (row (map_items s) k) as [m|]; simpl; [|reflexivity].
  rewrite (Hno m eq_refl). reflexivity.
Qed.

Lemma loot_ok qp pk item_id k now s c m :
  get_character qp s pk = Some c ->
  Py.truthy item_id = true -> to_pk item_id = Some k ->
  row (map_items s) k = Some m -> lootable_by c m = true ->
  loot qp pk item_id now s
  = (Ok200 (CharacterBody pk (looted c (inventory_entry m now) now)),
     with_map_items
       (with_characters s
          (<[pk := looted c (inventory_entry m now) now]> (characters s)))
       (<[key k := collected m now pk]> (map_items s))).
Proof.
  intros Hget Htruthy Hpk Hrow Hloot. unfold loot.
  rewrite Hget, Htruthy, Hpk, Hrow. simpl. rewrite Hloot. reflexivity.
Qed.


(** *** C3 and C9: interact *)

Lemma interact_ok qp pk character_id k c now s i g :
  get_interactable qp s pk = Some i ->
  colocated (characters s) i character_id k c ->
  i_is_active i = true -> exhausted i = false ->
  games s !! i_game i = Some g ->
  let tick := g_current_tick g in
  let i' := used i tick (interaction_record (Z.pos k) c tick now) now in
  interact qp pk character_id now s
  = (Ok200 (InteractableBody pk i' (InteractableSerializer.get_can_use i' g)),
     with_interactables s (<[pk := i']> (interactables s))).
Proof.
  intros Hget (Htruthy & Hpk & Hrow & Hgame & Hq & Hr) Hactive Hlimit Hg.
  unfold exhausted in Hlimit. unfold interact.
  rewrite Hget, Htruthy, Hpk. simpl. rewrite Hrow. simpl.
  rewrite Hgame, Pos.eqb_refl. simpl.
  rewrite Hq, Hr, !Z.eqb_refl, Hactive, Hlimit, Hg. reflexivity.
Qed.

Lemma interact_exhausted qp pk character_id k c now s i :
  get_interactable qp s pk = Some i ->
  colocated (characters s) i character_id k c ->
  i_is_active i = true -> exhausted i = true ->
  interact qp pk character_id now s = (BadRequest400 maximum_times, s).
Proof.
  intros Hget (Htruthy & Hpk & Hrow & Hgame & Hq & Hr) Hactive Hlimit.
  unfold exhausted in Hlimit. unfold interact.
  rewrite Hget, Htruthy, Hpk. simpl. rewrite Hrow. simpl.
  rewrite Hgame, Pos.eqb_refl. simpl.
  rewrite Hq, Hr, !Z.eqb_refl, Hactive, Hlimit. reflexivity.
Qed.

Lemma get_interactable_row qp s pk i :
  interactables s !! pk = Some i -> interactable_in_queryset qp i = true ->
  get_interactable qp s pk = Some i.
Proof. intros Hrow Hq. unfold get_interactable. rewrite Hrow, Hq. reflexivity. Qed.

Lemma run_exhausted pk i rest s :
  interactables s !! pk = Some i ->
  i_is_active i = true -> exhausted i = true ->
  Forall (valid_attempt (characters s) i) rest ->
  run (attempt_request pk <$> rest) s
  = ((fun _ => BadRequest400 maximum_times) <$> rest, s).
Proof.
  intros Hrow Hactive Hlimit Hvalid.
  induction Hvalid as [|a rest [Hq (k & c & Hco)] _ IH]; [reflexivity|].
  rewrite !fmap_cons. unfold attempt_request at 1. cbn [run serve].
  rewrite (interact_exhausted _ _ _ k c _ _ i); auto using get_interactable_row.
  rewrite IH. reflexivity.
Qed.

(** C3.  An active interactable with [max_uses = 2] and no use so far,
    whose game is [g], is the target of a run of interact attempts, each
    by a character at its position: the first two answer 200, each with
    [current_uses] one more, [last_used_tick] the current tick of [g] and
    one more record [{character_id, character_name, tick, timestamp,
    result}] at the end of the history; every further attempt answers the
    400 "maximum times" and changes nothing.  A record is made of the
    key and the name of the character of the attempt, the current tick
    of [g], the text of the instant of the attempt and the result
    'success'.  No hypothesis is on [cooldown_ticks], on the ticks or on
    the instants. *)
Theorem interact_twice_then_maximum s pk i g a1 k1 c1 a2 k2 c2 rest :
  interactables s !! pk = Some i ->
  i_max_uses i = 2 -> i_is_active i = true -> i_current_uses i = 0 ->
  games s !! i_game i = Some g ->
  interactable_in_queryset (a_query a1) i = true ->
  colocated (characters s) i (a_character_id a1) k1 c1 ->
  interactable_in_queryset (a_query a2) i = true ->
  colocated (characters s) i (a_character_id a2) k2 c2 ->
  Forall (valid_attempt (characters s) i) rest ->
  let tick := g_current_tick g in
  let record1 := interaction_record (Z.pos k1) c1 tick (a_now a1) in
  let record2 := interaction_record (Z.pos k2) c2 tick (a_now a2) in
  let i1 := used i tick record1 (a_now a1) in
  let i2 := used i1 tick record2 (a_now a2) in
  run (attempt_request pk <$> a1 :: a2 :: rest) s
  = (Ok200 (InteractableBody pk i1 (InteractableSerializer.get_can_use i1 g))
     :: Ok200 (InteractableBody pk i2 (InteractableSerializer.get_can_use i2 g))
     :: ((fun _ => BadRequest400 maximum_times) <$> rest),
     with_interactables s (<[pk := i2]> (interactables s)))
  /\ i_current_uses i1 = 1 /\ i_current_uses i2 = 2
  /\ i_last_used_tick i1 = Some tick /\ i_last_used_tick i2 = Some tick
  /\ i_interactions i1 = (i_interactions i ++ [record1])%list
  /\ i_interactions i2 = (i_interactions i ++ [record1; record2])%list
  /\ record1 = Py.PDict [ ("character_id", Py.PInt (Z.pos k1));
                          ("character_name", Py.PStr (c_name c1));
                          ("tick", Py.PInt (g_current_tick g));
                          ("timestamp", Py.PStr (isoformat (a_now a1)));
                          ("result", Py.PStr "success") ]
  /\ record2 = Py.PDict [ ("character_id", Py.PInt (Z.pos k2));
                          ("character_name", Py.PStr (c_name c2));
                          ("tick", Py.PInt (g_current_tick g));
                          ("timestamp", Py.PStr (isoformat (a_now a2)));
                          ("result", Py.PStr "success") ].
Proof.
  intros Hrow Hmax Hactive Huses Hg Hq1 Hco1 Hq2 Hco2 Hrest tick r1 r2 i1 i2.
  assert (Hlimit0 : exhausted i = false).
  { unfold exhausted. rewrite Hmax, Huses. reflexivity. }
  assert (Hlimit1 : exhausted i1 = false).
  { unfold exhausted. simpl. rewrite Hmax, Huses. reflexivity. }
  assert (Hlimit2 : exhausted i2 = true).
  { unfold exhausted. simpl. rewrite Hmax, Huses. reflexivity. }
  split.
  - rewrite !fmap_cons. unfold attempt_request at 1 2. cbn [run serve].
    rewrite (interact_ok _ _ _ k1 c1 _ _ i g); auto using get_interactable_row.
    fold tick r1 i1.
    rewrite (interact_ok _ _ _ k2 c2 _ _ i1 g); auto.
    2:{ apply get_interactable_row; [apply lookup_insert_eq | exact Hq2]. }
    fold tick r2 i2.
    rewrite (run_exhausted pk i2); auto; [|apply lookup_insert_eq].
    cbn [with_interactables interactables games players hex_tiles characters map_items].
    rewrite insert_insert_eq. reflexivity.
  - simpl. rewrite Huses, <- app_assoc. repeat split.
Qed.

(** C9.  Take an active interactable under its use limit, with
    [cooldown_ticks > 0] and a (non-zero) [last_used_tick] less than
    [cooldown_ticks] ticks back, so that [can_use] is reported false.  An
    interact request by a character at its position answers 200 all the
    same and writes the row back with [current_uses] one more. *)
Theorem interact_ignores_cooldown qp pk character_id k c now s i g last :
  get_interactable qp s pk = Some i ->
  colocated (characters s) i character_id k c ->
  i_is_active i = true -> exhausted i = false ->
  games s !! i_game i = Some g ->
  i_cooldown_ticks i > 0 ->
  i_last_used_tick i = Some last -> last <> 0 ->
  g_current_tick g - last < i_cooldown_ticks i ->
  let tick := g_current_tick g in
  let i' := used i tick (interaction_record (Z.pos k) c tick now) now in
  InteractableSerializer.get_can_use i g = false
  /\ interact qp pk character_id now s
     = (Ok200 (InteractableBody pk i' (InteractableSerializer.get_can_use i' g)),
        with_interactables s (<[pk := i']> (interactables s)))
  /\ i_current_uses i' = i_current_uses i + 1.
Proof.
  intros Hget Hco Hactive Hlimit Hg Hcool Hlast Hnz Hearly tick i'.
  split; [|split].
  - unfold InteractableSerializer.get_can_use. unfold exhausted in Hlimit.
    rewrite Hlimit, Hlast.
    replace (last =? 0) with false by (symmetry; apply Z.eqb_neq; assumption).
    replace (i_cooldown_ticks i >? 0) with true by (symmetry; apply Z.gtb_lt; lia).
    replace (g_current_tick g - last <? i_cooldown_ticks i) with true
      by (symmetry; apply Z.ltb_lt; assumption).
    reflexivity.
  - apply interact_ok; assumption.
  - reflexivity.
Qed.

(** *** C6: one tile per (game, q, r) *)

Lemma exists_filter_elem {A : Type} (f : A -> bool) (l : list A) (x : A) :
  x ∈ l -> f x = true -> exists_ (List.filter f l) = true.
Proof.
  intros Hin Hf.
  destruct (List.filter f l) as [|y l'] eqn:Hfl; [|reflexivity].
  assert (Hx : In x (List.filter f l)).
  { apply filter_In. split; [by apply list_elem_of_In | assumption]. }
  rewrite Hfl in Hx. destruct Hx.
Qed.

Lemma create_tile_duplicate req s :
  (exists t, t ∈ hex_tiles s /\ tile_key t = (tr_game req, tr_q req, tr_r req)) ->
  status_code (fst (create_tile req s)) = 400 /\ snd (create_tile req s) = s.
Proof.
  intros (t & Hin & Hkey). apply tile_at_key in Hkey.
  unfold create_tile, HexTileSerializer.validate, tiles_filter.
  rewrite (exists_filter_elem _ _ t Hin Hkey).
  repeat case_match; simpl; auto.
Qed.

Lemma create_tile_unique req s :
  tiles_unique (hex_tiles s) -> tiles_unique (hex_tiles (snd (create_tile req s))).
Proof.
  intros Hnd. unfold create_tile, HexTileSerializer.validate.
  destruct (games s !! tr_game req); [|assumption].
  case_match; [assumption|].
  destruct (exists_ (tiles_filter (tr_game req) (tr_q req) (tr_r req) (hex_tiles s)))
    eqn:Hex; [assumption|].
  simpl. unfold tiles_unique. rewrite fmap_app. apply NoDup_app.
  split; [assumption|]. split; [|apply NoDup_singleton].
  intros key0 Hin Hnew. apply list_elem_of_singleton in Hnew. subst key0.
  apply list_elem_of_fmap in Hin as (t & Hkey & Hin).
  unfold tiles_filter in Hex.
  rewrite (exists_filter_elem _ _ t Hin) in Hex; [discriminate|].
  apply tile_at_key. rewrite <- Hkey. reflexivity.
Qed.

Lemma serve_tiles_unique now rq s :
  tiles_unique (hex_tiles s) -> tiles_unique (hex_tiles (snd (serve now rq s))).
Proof.
  intros Hnd. destruct rq; simpl; try (by apply create_tile_unique);
    unfold retrieve, update, destroy, move, loot, interact, join;
    repeat case_match; simpl; assumption.
Qed.

Lemma run_tiles_unique rqs s :
  tiles_unique (hex_tiles s) -> tiles_unique (hex_tiles (snd (run rqs s))).
Proof.
  revert s. induction rqs as [|[now rq] rqs IH]; intros s Hnd; [assumption|].
  simpl. pose proof (serve_tiles_unique now rq s Hnd) as Hstep.
  destruct (serve now rq s) as [resp s1]. simpl in Hstep.
  specialize (IH s1 Hstep). destruct (run rqs s1). assumption.
Qed.

(** C6.  Creating a tile at coordinates where the game already has one
    answers 400 and leaves the store, the tile table with it, unchanged;
    and a tile table with at most one tile per [(game, q, r)] still has
    at most one per key after any run of requests, tile creations among
    them. *)
Theorem tile_key_unique req s :
  ((exists t, t ∈ hex_tiles s /\ tile_key t = (tr_game req, tr_q req, tr_r req)) ->
   status_code (fst (create_tile req s)) = 400 /\ snd (create_tile req s) = s)
  /\ (tiles_unique (hex_tiles s) ->
      forall rqs, tiles_unique (hex_tiles (snd (run rqs s)))).
Proof.
  split; [apply create_tile_duplicate|].
  intros Hnd rqs. by apply run_tiles_unique.
Qed.

(** ** Beyond the claims *)

(** *** Which request writes which table *)

Ltac unfold_views :=
  unfold retrieve, update, destroy, move, loot, interact, join, create_tile,
    create_game, start, create_character, spawn_item, update_item,
    create_interactable.

Lemma serve_games now rq s : games (snd (serve now rq s)) = games s.
Proof. destruct rq; simpl; unfold_views; repeat case_match; reflexivity. Qed.

(** A join either creates the player, under a key no player had, or
    changes nothing. *)
Lemma join_outcome user req now s :
  (status_code (fst (join user req now s)) = 201
   /\ exists g, games s !! j_game req = Some g
      /\ joinable (g_status g) = true
      /\ PlayerCreateSerializer.active_player_count (players s) (j_game req)
         < g_max_players g
      /\ has_player (players s) (j_game req) user = false
      /\ players s !! fresh (dom (players s)) = None
      /\ snd (join user req now s)
         = with_players s (<[fresh (dom (players s)) := new_player user req now]>
                             (players s)))
  \/ (status_code (fst (join user req now s)) <> 201
      /\ (status_code (fst (join user req now s)) = 400
          \/ status_code (fst (join user req now s)) = 500)
      /\ snd (join user req now s) = s).
Proof.
  unfold join, PlayerCreateSerializer.validate.
  destruct (declared_player_fields req); [right; simpl; auto|].
  destruct (on_field _ _); [right; simpl; auto|].
  destruct (games s !! j_game req) as [g|]; [|right; simpl; auto].
  destruct (joinable (g_status g)) eqn:Hj; simpl; [|right; simpl; auto].
  destruct (Z.geb_spec (PlayerCreateSerializer.active_player_count
                          (players s) (j_game req)) (g_max_players g));
    [right; simpl; auto|].
  destruct (has_player _ _ _) eqn:Hhas; [right; simpl; auto|].
  left. simpl. split; [reflexivity|]. exists g. split_and!; auto.
  apply not_elem_of_dom, is_fresh.
Qed.

Lemma serve_players now rq s :
  players (snd (serve now rq s)) = players s
  \/ exists user req pk,
       rq = Join user req
       /\ status_code (fst (join user req now s)) = 201
       /\ players s !! pk = None
       /\ players (snd (serve now rq s))
          = <[pk := new_player user req now]> (players s).
Proof.
  destruct rq; simpl;
    try (left; unfold_views; repeat case_match; reflexivity).
  destruct (join_outcome user req now s)
    as [(H201 & g & _ & _ & _ & _ & Hfresh & ->) | (_ & _ & ->)]; [|by left].
  right. eexists _, _, _. split_and!; eauto.
Qed.

Lemma api_serve_players now rq s :
  players (snd (api_serve now rq s)) = players s
  \/ exists user req pk,
       rq = Core (Join user req)
       /\ status_code (fst (join user req now s)) = 201
       /\ players s !! pk = None
       /\ players (snd (api_serve now rq s))
          = <[pk := new_player user req now]> (players s).
Proof.
  destruct rq; simpl; try (left; unfold_views; repeat case_match; reflexivity).
  destruct (serve_players now rq s) as [H | (user & req & pk & -> & H)]; [by left|].
  right. eauto 10.
Qed.

Lemma api_serve_games now rq s :
  games (snd (api_serve now rq s)) = games s
  \/ (exists req pk, rq = CreateGame req /\ games s !! pk = None
                     /\ games (snd (api_serve now rq s))
                        = <[pk := new_game req]> (games s))
  \/ (exists pk g, rq = Start pk /\ games s !! pk = Some g
                   /\ g_status g = waiting
                   /\ games (snd (api_serve now rq s))
                      = <[pk := started g now]> (games s)).
Proof.
  destruct rq; simpl; try (left; unfold_views; repeat case_match; reflexivity).
  - left. apply serve_games.
  - unfold create_game. case_match; simpl; [by left|].
    right. left. eexists _, _. repeat split. apply not_elem_of_dom, is_fresh.
  - unfold start. destruct (games s !! pk) as [g|] eqn:Hg; simpl; [|by left].
    destruct (g_status g) eqn:Hst; simpl; try by left.
    right. right. eexists _, _. repeat split; eassumption.
Qed.

Lemma api_run_invariant (P : Store -> Prop) :
  (forall now rq s, P s -> P (snd (api_serve now rq s))) ->
  forall rqs s, P s -> P (snd (api_run rqs s)).
Proof.
  intros Hstep rqs. induction rqs as [|[now rq] rqs IH]; intros s HP; [assumption|].
  simpl. pose proof (Hstep now rq s HP) as H1.
  destruct (api_serve now rq s) as [code s1]. simpl in H1.
  specialize (IH s1 H1). destruct (api_run rqs s1). assumption.
Qed.

(** *** Games: start *)



Lemma start_waiting pk now s g :
  games s !! pk = Some g -> g_status g = waiting ->
  start pk now s
  = (Ok200 (pk, started g now), with_games s (<[pk := started g now]> (games s))).
Proof. intros Hg Hst. unfold start. rewrite Hg, Hst. reflexivity. Qed.



(** *** Players: capacity and the one player per user *)

Lemma filter_length_perm {A : Type} (f : A -> bool) (l l' : list A) :
  l ≡ₚ l' -> length (List.filter f l) = length (List.filter f l').
Proof.
  induction 1 as [|x l l' _ IH|x y l|l l' l'' _ IH1 _ IH2]; simpl.
  - reflexivity.
  - destruct (f x); simpl; congruence.
  - destruct (f x), (f y); reflexivity.
  - congruence.
Qed.

Lemma count_insert_fresh ps pk p game :
  ps !! pk = None ->
  PlayerCreateSerializer.active_player_count (<[pk := p]> ps) game
  = PlayerCreateSerializer.active_player_count ps game
    + (if Pos.eqb (p_game p) game && p_is_active p then 1 else 0).
Proof.
  intros Hfresh. unfold PlayerCreateSerializer.active_player_count.
  rewrite (filter_length_perm _ _ _ (map_to_list_insert ps pk p Hfresh)).
  simpl. destruct (Pos.eqb (p_game p) game && p_is_active p); simpl; lia.
Qed.

Lemma count_nonneg ps game :
  0 <= PlayerCreateSerializer.active_player_count ps game.
Proof. unfold PlayerCreateSerializer.active_player_count. lia. Qed.

Lemma filter_none {A : Type} (f : A -> bool) (l : list A) :
  (forall x, x ∈ l -> f x = false) -> List.filter f l = [].
Proof.
  induction l as [|a l IH]; intros H; simpl; [reflexivity|].
  rewrite (H a) by left. apply IH. intros x Hx. apply H. by right.
Qed.

Lemma count_no_player ps game :
  (forall k p, ps !! k = Some p -> p_game p <> game) ->
  PlayerCreateSerializer.active_player_count ps game = 0.
Proof.
  intros H. unfold PlayerCreateSerializer.active_player_count.
  rewrite filter_none; [reflexivity|].
  intros [k p] Hin. apply elem_of_map_to_list in Hin. simpl.
  specialize (H k p Hin). destruct (Pos.eqb_spec (p_game p) game); [done|reflexivity].
Qed.

Lemma exists_filter_true {A : Type} (f : A -> bool) (l : list A) :
  exists_ (List.filter f l) = true -> exists x, x ∈ l /\ f x = true.
Proof.
  destruct (List.filter f l) as [|x l'] eqn:Hfl; [discriminate|]. intros _.
  assert (Hx : In x (List.filter f l)) by (rewrite Hfl; by left).
  apply filter_In in Hx as [Hin Hf]. exists x. split; [by apply list_elem_of_In | done].
Qed.

Lemma has_player_insert ps pk p game user :
  ps !! pk = None -> has_player ps game user = true ->
  has_player (<[pk := p]> ps) game user = true.
Proof.
  intros Hfresh Hhas. unfold has_player in *.
  apply exists_filter_true in Hhas as ([k x] & Hin & Hf).
  apply exists_filter_elem with (x := (k, x)); [|assumption].
  apply elem_of_map_to_list. apply elem_of_map_to_list in Hin.
  rewrite lookup_insert_ne; [assumption | congruence].
Qed.

Lemma has_player_new ps pk user req now :
  has_player (<[pk := new_player user req now]> ps) (j_game req) user = true.
Proof.
  unfold has_player.
  apply exists_filter_elem with (x := (pk, new_player user req now)).
  - apply elem_of_map_to_list, lookup_insert_eq.
  - simpl. by rewrite !Pos.eqb_refl.
Qed.

Lemma join_has_player user req now s :
  has_player (players s) (j_game req) user = true ->
  (status_code (fst (join user req now s)) = 400
   \/ status_code (fst (join user req now s)) = 500)
  /\ snd (join user req now s) = s.
Proof.
  intros Hhas.
  destruct (join_outcome user req now s)
    as [(_ & g & _ & _ & _ & Hnew & _) | (_ & Hcode & Hs)]; [congruence | auto].
Qed.

Lemma api_serve_has_player now rq s game user :
  has_player (players s) game user = true ->
  has_player (players (snd (api_serve now rq s))) game user = true.
Proof.
  intros Hhas.
  destruct (api_serve_players now rq s) as [-> | (u & req & pk & _ & _ & Hfresh & ->)];
    [assumption | by apply has_player_insert].
Qed.

(** When a join has succeeded, every later join of the same user into
    the same game, whatever requests of the API come in between and
    whatever the name, colour and avatar, is answered 400 or 500 and
    changes nothing: the player of a user in a game is created at most
    once.  The answer is the 500 of the insert whenever the serializer
    has nothing to refuse. *)
Theorem join_once_per_user user req now s :
  status_code (fst (join user req now s)) = 201 ->
  forall rqs req2 now2,
    j_game req2 = j_game req ->
    let s2 := snd (api_run rqs (snd (join user req now s))) in
    (status_code (fst (join user req2 now2 s2)) = 400
     \/ status_code (fst (join user req2 now2 s2)) = 500)
    /\ snd (join user req2 now2 s2) = s2.
Proof.
  intros H201 rqs req2 now2 Hgame s2. apply join_has_player. rewrite Hgame.
  apply (api_run_invariant
           (fun s0 => has_player (players s0) (j_game req) user = true)).
  - intros. by apply api_serve_has_player.
  - destruct (join_outcome user req now s)
      as [(_ & g & _ & _ & _ & _ & _ & ->) | (Hno & _)]; [|congruence].
    simpl. apply has_player_new.
Qed.

(** A join that succeeds raises the player count of its game, the
    [player_count] of the game serializers, by exactly one and leaves
    the count of every other game as it was. *)
Theorem join_counts_one user req now s :
  status_code (fst (join user req now s)) = 201 ->
  let count s0 g := PlayerCreateSerializer.active_player_count (players s0) g in
  let s' := snd (join user req now s) in
  count s' (j_game req) = count s (j_game req) + 1
  /\ forall game, game <> j_game req -> count s' game = count s game.
Proof.
  intros H201 count s'. subst count s'.
  destruct (join_outcome user req now s)
    as [(_ & g & _ & _ & _ & _ & Hfresh & ->) | (Hno & _)]; [|congruence].
  simpl. split.
  - rewrite count_insert_fresh by assumption. simpl. by rewrite Pos.eqb_refl.
  - intros game Hne. rewrite count_insert_fresh by assumption. simpl.
    destruct (Pos.eqb_spec (j_game req) game); [congruence | simpl; lia].
Qed.

Lemma api_serve_within_capacity now rq s :
  within_capacity s -> within_capacity (snd (api_serve now rq s)).
Proof.
  intros [Hfk Hcap].
  destruct (api_serve_players now rq s)
    as [Hps | (user & req & pk & -> & H201 & Hfresh & Hps)].
  - (* the players are as they were *)
    unfold within_capacity. rewrite Hps.
    destruct (api_serve_games now rq s)
      as [-> | [(req & k & _ & Hk & ->) | (k & g' & _ & Hk & _ & ->)]].
    + auto.
    + split.
      * intros k0 p Hp. destruct (Hfk k0 p Hp) as [g Hg].
        exists g. rewrite lookup_insert_ne; [assumption | congruence].
      * intros pk g. destruct (decide (k = pk)) as [->|Hne].
        -- rewrite lookup_insert_eq. intros _.
           rewrite count_no_player; [lia|].
           intros k0 p Hp Heq. destruct (Hfk k0 p Hp) as [g0 Hg0].
           rewrite Heq in Hg0. congruence.
        -- rewrite lookup_insert_ne by assumption. apply Hcap.
    + split.
      * intros k0 p Hp. destruct (Hfk k0 p Hp) as [g Hg].
        destruct (decide (k = p_game p)) as [->|Hne].
        -- rewrite lookup_insert_eq. eauto.
        -- rewrite lookup_insert_ne by assumption. eauto.
      * intros pk g. destruct (decide (k = pk)) as [->|Hne].
        -- rewrite lookup_insert_eq. intros [= <-]. simpl. by apply Hcap.
        -- rewrite lookup_insert_ne by assumption. apply Hcap.
  - (* a player has joined *)
    unfold within_capacity. rewrite Hps.
    assert (Hgs : games (snd (api_serve now (Core (Join user req)) s)) = games s)
      by apply serve_games.
    rewrite Hgs.
    destruct (join_outcome user req now s)
      as [(_ & g & Hg & _ & Hroom & _) | (Hno & _)]; [|congruence].
    split.
    + intros k0 p. destruct (decide (pk = k0)) as [->|Hne].
      * rewrite lookup_insert_eq. intros [= <-]. simpl. eauto.
      * rewrite lookup_insert_ne by assumption. apply Hfk.
    + intros game g0 Hg0. rewrite count_insert_fresh by assumption. simpl.
      specialize (Hcap game g0 Hg0).
      destruct (Pos.eqb_spec (j_game req) game) as [<-|Hne]; simpl; [|lia].
      assert (g0 = g) by congruence. subst g0. lia.
Qed.

(** The player count of a game never passes [max_players]: a store
    where every player is in a game of the store and no game holds more
    active players than its [max_players] (than none, for a negative
    [max_players], which game creation accepts) is still such a store
    after any run of requests of the API. *)
Theorem capacity_kept rqs s :
  within_capacity s -> within_capacity (snd (api_run rqs s)).
Proof.
  apply (api_run_invariant within_capacity). intros. by apply api_serve_within_capacity.
Qed.

Lemma join_201_iff user req now s :
  status_code (fst (join user req now s)) = 201 <->
  declared_player_fields req = None
  /\ on_field PlayerCreateSerializer.validate_color (j_color req) = None
  /\ exists g, games s !! j_game req = Some g
               /\ joinable (g_status g) = true
               /\ PlayerCreateSerializer.active_player_count (players s) (j_game req)
                  < g_max_players g
               /\ has_player (players s) (j_game req) user = false.
Proof.
  unfold join, PlayerCreateSerializer.validate.
  destruct (declared_player_fields req); simpl; [split; [done | intros [? _]; done]|].
  destruct (on_field _ _); simpl; [split; [done | intros (_ & ? & _); done]|].
  destruct (games s !! j_game req) as [g|]; simpl;
    [|split; [done | intros (_ & _ & g & ? & _); done]].
  destruct (joinable (g_status g)) eqn:Hj; simpl;
    [|split; [done | intros (_ & _ & g' & [= <-] & ? & _); congruence]].
  destruct (Z.geb_spec (PlayerCreateSerializer.active_player_count
                          (players s) (j_game req)) (g_max_players g)); simpl;
    [split; [done | intros (_ & _ & g' & [= <-] & _ & ? & _); lia]|].
  destruct (has_player _ _ _) eqn:Hhas; simpl;
    [split; [done | intros (_ & _ & g' & [= <-] & _ & _ & ?); congruence]|].
  split; [|done]. intros _. split_and!; try done. exists g. auto.
Qed.

(** Starting a game closes it to nobody: a join that is answered 201
    in a store is answered 201 as well when some game, the joined one or
    another, has been started first. *)
Theorem start_keeps_joinable user req now s pk t :
  status_code (fst (join user req now s)) = 201 ->
  status_code (fst (join user req now (snd (start pk t s)))) = 201.
Proof.
  intros H. apply join_201_iff in H as (Hd & Hc & g & Hg & Hj & Hroom & Hnew).
  apply join_201_iff. split_and!; try done.
  unfold start. destruct (games s !! pk) as [g0|] eqn:Hg0; simpl; [|eauto].
  destruct (not_waiting (g_status g0)); simpl; [eauto|].
  destruct (decide (pk = j_game req)) as [->|Hne].
  - rewrite lookup_insert_eq. exists (started g0 t). simpl.
    assert (g0 = g) by congruence. subst g0. auto.
  - rewrite lookup_insert_ne by assumption. eauto.
Qed.

Lemma api_serve_capped now rq s pk m :
  capped s pk m -> capped (snd (api_serve now rq s)) pk m.
Proof.
  intros (g & Hg & Hm). unfold capped.
  destruct (api_serve_games now rq s)
    as [-> | [(req & k & _ & Hk & ->) | (k & g' & _ & Hk & _ & ->)]].
  - eauto.
  - exists g. rewrite lookup_insert_ne; [auto | congruence].
  - destruct (decide (k = pk)) as [->|Hne].
    + rewrite lookup_insert_eq. exists (started g' now). simpl.
      split; [reflexivity | congruence].
    + rewrite lookup_insert_ne by assumption. eauto.
Qed.

Lemma join_full user req now s g :
  games s !! j_game req = Some g ->
  g_max_players g
  <= PlayerCreateSerializer.active_player_count (players s) (j_game req) ->
  status_code (fst (join user req now s)) = 400.
Proof.
  intros Hg Hfull. unfold join, PlayerCreateSerializer.validate.
  destruct (declared_player_fields req); [reflexivity|].
  destruct (on_field _ _); [reflexivity|]. rewrite Hg.
  destruct (joinable (g_status g)); simpl; [|reflexivity].
  destruct (Z.geb_spec (PlayerCreateSerializer.active_player_count
                          (players s) (j_game req)) (g_max_players g));
    [reflexivity | lia].
Qed.

Lemma first_error_none errors :
  first_error errors = None -> Forall (fun e => e = None) errors.
Proof.
  unfold first_error. induction errors as [|e errors IH]; simpl; [constructor|].
  destruct e as [msg|]; simpl; [discriminate|].
  intros H. constructor; [reflexivity | by apply IH].
Qed.

Lemma create_game_201 req s :
  status_code (fst (create_game req s)) = 201 -> game_create_errors req = None.
Proof. unfold create_game. destruct (game_create_errors req); [discriminate | done]. Qed.

Lemma create_game_ok req s :
  game_create_errors req = None ->
  create_game req s
  = (Created201 (fresh (dom (games s)), new_game req),
     with_games s (<[fresh (dom (games s)) := new_game req]> (games s))).
Proof. intros H. unfold create_game. rewrite H. reflexivity. Qed.

(** A game is created waiting, at tick 0, under a key no game had, and
    only with a tick duration in [1, 1440] and map sides in [10, 200]
    where the request carries them; a start of it succeeds at once.
    [max_players] is taken as it is: when it is zero or negative, every
    join into the game is answered 400 for ever after. *)
Theorem create_game_waiting req s :
  status_code (fst (create_game req s)) = 201 ->
  let s' := snd (create_game req s) in
  (forall v, gc_tick_duration_minutes req = Some v -> 1 <= v <= 1440)
  /\ (forall v, gc_map_width req = Some v -> 10 <= v <= 200)
  /\ (forall v, gc_map_height req = Some v -> 10 <= v <= 200)
  /\ exists pk,
       games s !! pk = None
       /\ games s' !! pk = Some (new_game req)
       /\ g_status (new_game req) = waiting
       /\ g_current_tick (new_game req) = 0
       /\ (forall now, status_code (fst (start pk now s')) = 200)
       /\ (g_max_players (new_game req) <= 0 ->
           forall rqs user jreq now,
             j_game jreq = pk ->
             status_code (fst (join user jreq now (snd (api_run rqs s')))) = 400).
Proof.
  intros H201 s'. subst s'.
  apply create_game_201 in H201 as Herr. rewrite (create_game_ok _ _ Herr). simpl.
  apply first_error_none in Herr.
  apply Forall_cons in Herr as [_ Herr].
  apply Forall_cons in Herr as [Ht Herr].
  apply Forall_cons in Herr as [Hw Herr].
  apply Forall_cons in Herr as [Hh _].
  split_and!.
  - intros v E. rewrite E in Ht. simpl in Ht.
    unfold GameCreateSerializer.validate_tick_duration_minutes in Ht.
    destruct (Z.ltb_spec v 1); [discriminate|].
    destruct (Z.gtb_spec v 1440); [discriminate|]. lia.
  - intros v E. rewrite E in Hw. simpl in Hw.
    unfold GameCreateSerializer.validate_map_width in Hw.
    destruct (Z.ltb_spec v 10); [discriminate|].
    destruct (Z.gtb_spec v 200); [discriminate|]. lia.
  - intros v E. rewrite E in Hh. simpl in Hh.
    unfold GameCreateSerializer.validate_map_height in Hh.
    destruct (Z.ltb_spec v 10); [discriminate|].
    destruct (Z.gtb_spec v 200); [discriminate|]. lia.
  - exists (fresh (dom (games s))). split_and!; try done.
    + apply not_elem_of_dom, is_fresh.
    + apply lookup_insert_eq.
    + intros now. erewrite start_waiting; [reflexivity | apply lookup_insert_eq | reflexivity].
    + intros Hm rqs user jreq now Hgame.
      set (pk := fresh (dom (games s))) in *.
      assert (Hcap : capped (snd (api_run rqs
                                (with_games s (<[pk := new_game req]> (games s)))))
                            pk (g_max_players (new_game req))).
      { apply (api_run_invariant
                 (fun s0 => capped s0 pk (g_max_players (new_game req)))).
        - intros. by apply api_serve_capped.
        - exists (new_game req). simpl. split; [apply lookup_insert_eq | reflexivity]. }
      destruct Hcap as (g & Hg & Hmax).
      apply (join_full _ _ _ _ g); rewrite Hgame; [assumption|].
      pose proof (count_nonneg
                    (players (snd (api_run rqs
                       (with_games s (<[pk := new_game req]> (games s))))))
                    pk). simpl in Hmax. lia.
Qed.

(** *** Tiles: nearby, lookup, update validation *)

Lemma in_box_spec game q r radius t :
  in_box game q r radius t = true <->
  Z.pos (t_game t) = game
  /\ q - radius <= t_q t <= q + radius
  /\ r - radius <= t_r t <= r + radius.
Proof.
  unfold in_box. rewrite !andb_true_iff, Z.eqb_eq, !Z.geb_le, !Z.leb_le. lia.
Qed.

Lemma nearby_elem game q r radius s t :
  t ∈ answered (nearby (Some (Py.IntText game)) (Some (Py.IntText q))
                       (Some (Py.IntText r)) (Some (Py.IntText radius)) s) <->
  t ∈ hex_tiles s /\ in_box game q r radius t = true.
Proof.
  simpl. rewrite list_elem_of_In, filter_In, <- list_elem_of_In. reflexivity.
Qed.

Lemma nearby_ok game q r radius s :
  nearby (Some (Py.IntText game)) (Some (Py.IntText q)) (Some (Py.IntText r))
         radius s
  = match from_option Py.int (Some 1) radius with
    | Some radius => Ok200 (List.filter (in_box game q r radius) (hex_tiles s))
    | None => ServerError500
    end.
Proof. unfold nearby. destruct (from_option Py.int (Some 1) radius); reflexivity. Qed.

(** [nearby] reads [radius] first: a radius that is not the text of an
    integer answers 500, whatever the other parameters, missing ones
    too.  With a radius that is absent or an integer, it answers 400
    when [game] is missing or empty or when [q] or [r] is missing, and
    500 when [q], [r] or [game] is there and is not the text of an
    integer.  Otherwise its answer grows with the radius: a tile
    answered for a radius is answered for every larger one; a missing
    radius is the radius 1; a negative radius answers no tile at all;
    and the radius 0 answers only tiles at [(q, r)] itself. *)
Theorem nearby_grows game q r s :
  (forall g0 q0 r0 radius,
      radius = Some Py.EmptyText \/ radius = Some Py.OtherText ->
      status_code (nearby g0 q0 r0 radius s) = 500)
  /\ (forall g0 q0 r0 radius,
        radius = None \/ (exists z, radius = Some (Py.IntText z)) ->
        g0 = None \/ g0 = Some Py.EmptyText \/ q0 = None \/ r0 = None ->
        status_code (nearby g0 q0 r0 radius s) = 400)
  /\ (forall g0 q0 r0 radius,
        radius = None \/ (exists z, radius = Some (Py.IntText z)) ->
        g0 <> None -> g0 <> Some Py.EmptyText -> q0 <> None -> r0 <> None ->
        (forall z, g0 <> Some (Py.IntText z))
        \/ (forall z, q0 <> Some (Py.IntText z))
        \/ (forall z, r0 <> Some (Py.IntText z)) ->
        status_code (nearby g0 q0 r0 radius s) = 500)
  /\ (forall radius,
        nearby (Some (Py.IntText game)) (Some (Py.IntText q))
               (Some (Py.IntText r)) (Some (Py.IntText radius)) s
        = Ok200 (List.filter (in_box game q r radius) (hex_tiles s)))
  /\ (forall radius radius' t,
        radius <= radius' ->
        t ∈ answered (nearby (Some (Py.IntText game)) (Some (Py.IntText q)) (Some (Py.IntText r))
                             (Some (Py.IntText radius)) s) ->
        t ∈ answered (nearby (Some (Py.IntText game)) (Some (Py.IntText q)) (Some (Py.IntText r))
                             (Some (Py.IntText radius')) s))
  /\ nearby (Some (Py.IntText game)) (Some (Py.IntText q)) (Some (Py.IntText r)) None s
     = nearby (Some (Py.IntText game)) (Some (Py.IntText q))
              (Some (Py.IntText r)) (Some (Py.IntText 1)) s
  /\ (forall radius, radius < 0 ->
        nearby (Some (Py.IntText game)) (Some (Py.IntText q))
               (Some (Py.IntText r)) (Some (Py.IntText radius)) s
        = Ok200 [])
  /\ (forall t,
        t ∈ answered (nearby (Some (Py.IntText game)) (Some (Py.IntText q)) (Some (Py.IntText r))
                             (Some (Py.IntText 0)) s) ->
        t_q t = q /\ t_r t = r).
Proof.
  split_and!.
  - intros g0 q0 r0 radius [-> | ->]; reflexivity.
  - intros g0 q0 r0 radius Hradius Hmissing.
    assert (exists z, from_option Py.int (Some 1) radius = Some z) as [z Hz].
    { destruct Hradius as [-> | [z ->]]; simpl; eauto. }
    unfold nearby. rewrite Hz.
    destruct Hmissing as [-> | [-> | [-> | ->]]]; simpl;
      rewrite ?andb_false_r; try reflexivity.
  - intros g0 q0 r0 radius Hradius Hg Hge Hq Hr Hbad.
    assert (exists z, from_option Py.int (Some 1) radius = Some z) as [z Hz].
    { destruct Hradius as [-> | [z ->]]; simpl; eauto. }
    unfold nearby. rewrite Hz.
    destruct g0 as [[zg| |]|], q0 as [[zq| |]|], r0 as [[zr| |]|];
      try done; try reflexivity.
    exfalso. destruct Hbad as [H | [H | H]]; eapply H; reflexivity.
  - reflexivity.
  - intros radius radius' t Hle. rewrite !nearby_elem.
    rewrite !in_box_spec. intros (Hin & Hg & Hq & Hr). split_and!; auto; lia.
  - reflexivity.
  - intros radius Hneg. rewrite nearby_ok. simpl. f_equal. apply filter_none.
    intros t _. destruct (in_box game q r radius t) eqn:Hbox; [|reflexivity].
    apply in_box_spec in Hbox. lia.
  - intros t. rewrite nearby_elem. rewrite in_box_spec. lia.
Qed.

(** [nearby] never misses a tile of the game within the hex distance
    [radius] of [(q, r)], and answers more: every tile it answers is
    within the hex distance [2 * radius], and the corner [(q + radius,
    r + radius)], when the game has it, is answered at exactly that
    distance. *)
Theorem nearby_covers_hex_disk game q r radius s t :
  t ∈ hex_tiles s -> Z.pos (t_game t) = game -> 0 <= radius ->
  (hex_distance (t_q t) (t_r t) q r <= radius ->
   t ∈ answered (nearby (Some (Py.IntText game)) (Some (Py.IntText q)) (Some (Py.IntText r))
                        (Some (Py.IntText radius)) s))
  /\ (t ∈ answered (nearby (Some (Py.IntText game)) (Some (Py.IntText q)) (Some (Py.IntText r))
                           (Some (Py.IntText radius)) s) ->
      hex_distance (t_q t) (t_r t) q r <= 2 * radius)
  /\ (t_q t = q + radius -> t_r t = r + radius ->
      t ∈ answered (nearby (Some (Py.IntText game)) (Some (Py.IntText q)) (Some (Py.IntText r))
                           (Some (Py.IntText radius)) s)
      /\ hex_distance (t_q t) (t_r t) q r = 2 * radius).
Proof.
  intros Hin Hg Hrad.
  rewrite !nearby_elem. rewrite !in_box_spec.
  unfold hex_distance. split_and!.
  - intros Hd. split; [assumption|]. split; [assumption|].
    assert (Hsum : Z.abs (t_q t - q) + Z.abs (t_q t + t_r t - q - r)
                   + Z.abs (t_r t - r) < 2 * radius + 2).
    { pose proof (Z.div_mod (Z.abs (t_q t - q) + Z.abs (t_q t + t_r t - q - r)
                             + Z.abs (t_r t - r)) 2 ltac:(lia)) as Hdm.
      pose proof (Z.mod_pos_bound (Z.abs (t_q t - q) + Z.abs (t_q t + t_r t - q - r)
                                   + Z.abs (t_r t - r)) 2 ltac:(lia)). lia. }
    lia.
  - intros (_ & _ & Hq & Hr).
    apply Z.div_le_upper_bound; lia.
  - intros Hq Hr. split; [split_and!; auto; lia|].
    rewrite Hq, Hr.
    replace (q + radius - q) with radius by lia.
    replace (q + radius + (r + radius) - q - r) with (2 * radius) by lia.
    replace (r + radius - r) with radius by lia.
    rewrite !Z.abs_eq by lia.
    replace (radius + 2 * radius + radius) with (2 * radius * 2) by lia.
    apply Z.div_mul. lia.
Qed.

Lemma exists_false_nil {A : Type} (l : list A) : exists_ l = false -> l = [].
Proof. destruct l; [reflexivity | discriminate]. Qed.

Lemma tile_lookup_at game q r t :
  tile_in_queryset (tile_lookup game q r) t = tile_at game q r t.
Proof.
  unfold tile_in_queryset, tile_at, tile_lookup, filter_eq. simpl.
  destruct (Pos.eqb (t_game t) game), (t_q t =? q), (t_r t =? r); reflexivity.
Qed.

(** A tile that has been created is found again: when [create_tile]
    answers 201, the listing [?game=g&q=q&r=r], which answered no tile
    before, answers the new tile and no other; a refused creation changes
    no listing. *)
Theorem created_tile_is_listed req s :
  let s' := snd (create_tile req s) in
  let qp := tile_lookup (tr_game req) (tr_q req) (tr_r req) in
  (status_code (fst (create_tile req s)) = 201 ->
   list_tiles qp s = [] /\ list_tiles qp s' = [new_tile req])
  /\ (status_code (fst (create_tile req s)) <> 201 -> s' = s).
Proof.
  unfold create_tile, HexTileSerializer.validate.
  destruct (games s !! tr_game req); simpl; [|split; done].
  case_match; simpl; [split; done|].
  destruct (exists_ (tiles_filter (tr_game req) (tr_q req) (tr_r req) (hex_tiles s)))
    eqn:Hex; simpl; [split; done|].
  split; [|done]. intros _.
  apply exists_false_nil in Hex. unfold tiles_filter in Hex.
  unfold list_tiles. simpl. rewrite List.filter_app.
  rewrite !(List.filter_ext _ _ (tile_lookup_at _ _ _)), Hex. simpl.
  replace (tile_at (tr_game req) (tr_q req) (tr_r req) (new_tile req)) with true;
    [done|].
  symmetry. apply tile_at_key. reflexivity.
Qed.

Lemma combine_seq_elem {A : Type} (l : list A) start k x :
  (k, x) ∈ combine (seq start (length l)) l
  <-> exists n, k = (start + n)%nat /\ l !! n = Some x.
Proof.
  revert start. induction l as [|a l IH]; intros start; simpl.
  - split; [intros H; inversion H | intros (n & _ & H); discriminate].
  - rewrite elem_of_cons, IH. split.
    + intros [[= -> ->] | (n & -> & Hn)].
      * exists 0%nat. split; [lia | reflexivity].
      * exists (S n). split; [lia | assumption].
    + intros ([|n] & -> & Hn); simpl in Hn.
      * left. injection Hn as ->. f_equal. lia.
      * right. exists n. split; [lia | assumption].
Qed.

(** The validation of a tile update leaves the tile itself out of the
    search for a duplicate: in a table with at most one tile per key, a
    tile may be saved again at its own coordinates, and may not be moved
    to the coordinates of another tile. *)
Theorem tile_update_excludes_itself ts i t :
  tiles_unique ts -> ts !! i = Some t ->
  HexTileSerializer.validate (Some i) ts (t_game t) (t_q t) (t_r t) = None
  /\ forall j u, j <> i -> ts !! j = Some u ->
       HexTileSerializer.validate (Some i) ts (t_game u) (t_q u) (t_r u)
       = Some "A tile already exists at these coordinates".
Proof.
  intros Hnd Hi. unfold HexTileSerializer.validate. split.
  - rewrite filter_none; [reflexivity|].
    intros [k x] Hin. apply combine_seq_elem in Hin as (n & -> & Hn). simpl.
    destruct (tile_at (t_game t) (t_q t) (t_r t) x) eqn:Hat; [|reflexivity].
    apply tile_at_key in Hat. simpl.
    assert (n = i).
    { apply (NoDup_lookup _ _ _ (tile_key t) Hnd);
        rewrite list_lookup_fmap; [rewrite Hn | rewrite Hi]; simpl;
        [rewrite Hat|]; reflexivity. }
    subst n. by rewrite Nat.eqb_refl.
  - intros j u Hne Hj.
    rewrite (exists_filter_elem _ _ (j, u)); [reflexivity | |].
    + apply combine_seq_elem. exists j. auto.
    + simpl. replace (tile_at (t_game u) (t_q u) (t_r u) u) with true
        by (symmetry; by apply tile_at_key).
      simpl. by destruct (Nat.eqb_spec j i).
Qed.

(** *** Characters: creation, health, death, position *)

Lemma serve_characters now rq s :
  characters (snd (serve now rq s)) = characters s
  \/ (exists pk c c',
        characters s !! pk = Some c /\ rewritten now c c'
        /\ characters (snd (serve now rq s)) = <[pk := c']> (characters s))
  \/ (exists pk, characters (snd (serve now rq s)) = delete pk (characters s)).
Proof.
  destruct rq; simpl;
    try (left; unfold_views; repeat case_match; reflexivity).
  - unfold update. destruct (get_character qp s pk) as [c|] eqn:Hget; [|by left].
    apply get_character_some in Hget as [Hrow _].
    destruct (update_errors partial c d) eqn:Herr; simpl; [by left|].
    right. left. exists pk, c, (updated c d now). split_and!; auto.
    by apply (rewritten_update now c partial).
  - unfold destroy. destruct (get_character qp s pk); [|by left].
    right. right. by exists pk.
  - unfold move. destruct (get_character qp s pk) as [c|] eqn:Hget; [|by left].
    apply get_character_some in Hget as [Hrow _].
    repeat case_match; simpl; try by left.
    right. left. eexists pk, c, _. split_and!; [assumption | constructor | reflexivity].
  - unfold loot. destruct (get_character qp s pk) as [c|] eqn:Hget; [|by left].
    apply get_character_some in Hget as [Hrow _].
    repeat case_match; simpl; try by left.
    right. left. eexists pk, c, _. split_and!; [assumption | constructor | reflexivity].
Qed.

Lemma api_serve_characters now rq s :
  characters (snd (api_serve now rq s)) = characters s
  \/ (exists pk c c',
        characters s !! pk = Some c /\ rewritten now c c'
        /\ characters (snd (api_serve now rq s)) = <[pk := c']> (characters s))
  \/ (exists pk, characters (snd (api_serve now rq s)) = delete pk (characters s))
  \/ (exists pk req,
        characters s !! pk = None
        /\ characters (snd (api_serve now rq s))
           = <[pk := new_character req now]> (characters s)).
Proof.
  destruct rq; simpl;
    try (left; unfold_views; repeat case_match; reflexivity).
  - destruct (serve_characters now rq s) as [H | [H | H]]; auto.
  - unfold create_character. repeat case_match; simpl; try by left.
    right. right. right. eexists _, _. split; [|reflexivity].
    apply not_elem_of_dom, is_fresh.
Qed.

Lemma update_errors_none partial c d :
  update_errors partial c d = None ->
  (forall v, u_health d = Some v -> v <= c_max_health c)
  /\ (forall v, u_stamina d = Some v -> v <= c_max_stamina c).
Proof.
  intros H. apply first_error_none in H.
  apply Forall_cons in H as [_ H].
  apply Forall_cons in H as [Hh H].
  apply Forall_cons in H as [Hs _].
  split; intros v E.
  - rewrite E in Hh. simpl in Hh. unfold validate_health in Hh.
    destruct (Z.gtb_spec v (c_max_health c)); [discriminate | lia].
  - rewrite E in Hs. simpl in Hs. unfold validate_stamina in Hs.
    destruct (Z.gtb_spec v (c_max_stamina c)); [discriminate | lia].
Qed.

Lemma rewritten_healthy now c c' :
  rewritten now c c' ->
  c_health c <= c_max_health c /\ c_stamina c <= c_max_stamina c ->
  c_health c' <= c_max_health c' /\ c_stamina c' <= c_max_stamina c'.
Proof.
  intros [q r | entry | partial d Herr] [Hh Hs]; simpl; auto.
  apply update_errors_none in Herr as [Hh' Hs'].
  destruct (u_health d) as [h|], (u_stamina d) as [st|]; simpl; auto.
Qed.

Lemma rewritten_died_at now c c' : rewritten now c c' -> c_died_at c' = c_died_at c.
Proof. intros [q r | entry | partial d Herr]; reflexivity. Qed.

Lemma table_invariant (P : Character -> Prop) now rq s :
  (forall c c', rewritten now c c' -> P c -> P c') ->
  (forall req, P (new_character req now)) ->
  (forall pk c, characters s !! pk = Some c -> P c) ->
  forall pk c, characters (snd (api_serve now rq s)) !! pk = Some c -> P c.
Proof.
  intros Hrew Hnew Hall pk c.
  destruct (api_serve_characters now rq s)
    as [-> | [(k & c0 & c1 & Hk & Hr & ->) | [(k & ->) | (k & req & Hk & ->)]]].
  - apply Hall.
  - destruct (decide (k = pk)) as [->|Hne].
    + rewrite lookup_insert_eq. intros [= <-]. eauto.
    + rewrite lookup_insert_ne by assumption. apply Hall.
  - destruct (decide (k = pk)) as [->|Hne].
    + rewrite lookup_delete_eq. discriminate.
    + rewrite lookup_delete_ne by assumption. apply Hall.
  - destruct (decide (k = pk)) as [->|Hne].
    + rewrite lookup_insert_eq. intros [= <-]. apply Hnew.
    + rewrite lookup_insert_ne by assumption. apply Hall.
Qed.

(** Health never passes [max_health] and stamina never passes
    [max_stamina]: when it is so of every character of a store, it is so
    of every character after any run of requests of the API.  A
    character is created at its maxima, an update is refused above
    them, and no request writes the maxima. *)
Theorem health_bounded rqs s : healthy s -> healthy (snd (api_run rqs s)).
Proof.
  apply (api_run_invariant healthy). intros now rq s0 H.
  unfold healthy. apply (table_invariant
    (fun c => c_health c <= c_max_health c /\ c_stamina c <= c_max_stamina c)).
  - intros c c'. apply rewritten_healthy.
  - intros req. simpl. lia.
  - assumption.
Qed.

(** No request of the API records a time of death: in a store where no
    character has a [died_at], none has one after any run of requests;
    and a partial update to the status dead, which every living
    character accepts, leaves [died_at] as it was while it puts the
    character out of the reach of every later retrieve. *)
Theorem death_is_never_dated s :
  (no_death_recorded s -> forall rqs, no_death_recorded (snd (api_run rqs s)))
  /\ (forall qp pk c now,
        get_character qp s pk = Some c ->
        let s' := snd (update true qp pk kill now s) in
        status_code (fst (update true qp pk kill now s)) = 200
        /\ characters s' !! pk = Some (updated c kill now)
        /\ c_status (updated c kill now) = dead
        /\ c_died_at (updated c kill now) = c_died_at c
        /\ forall qp2, retrieve qp2 pk s' = (NotFound404 detail_not_found, s')).
Proof.
  split.
  - intros H rqs. revert s H. apply (api_run_invariant no_death_recorded).
    intros now rq s0 H. unfold no_death_recorded.
    apply (table_invariant (fun c => c_died_at c = None)); auto.
    intros c c' Hr Hc. by rewrite (rewritten_died_at _ _ _ Hr).
  - intros qp pk c now Hget s'. subst s'. unfold update. rewrite Hget.
    simpl. split_and!; try done.
    + apply lookup_insert_eq.
    + intros qp2. unfold retrieve.
      rewrite (get_character_dead qp2 _ pk (updated c kill now)); try done.
      apply lookup_insert_eq.
Qed.

(** The position of an update is not checked against the map: where
    the game has no tile and a move is refused with 400, a partial update
    of [position_q] and [position_r] is answered 200 and puts the
    character there. *)
Theorem update_skips_tile_check qp pk c q r now s :
  get_character qp s pk = Some c ->
  (forall t, t ∈ hex_tiles s -> tile_key t <> (c_game c, q, r)) ->
  move qp pk (Some q) (Some r) now s
  = (BadRequest400 "Invalid tile coordinates", s)
  /\ update true qp pk (reposition q r) now s
     = (Ok200 (CharacterBody pk (updated c (reposition q r) now)),
        with_characters s
          (<[pk := updated c (reposition q r) now]> (characters s)))
  /\ c_position_q (updated c (reposition q r) now) = q
  /\ c_position_r (updated c (reposition q r) now) = r.
Proof.
  intros Hget Hno. split_and!; try done.
  - unfold move. rewrite Hget. unfold tiles_filter. rewrite filter_none; [done|].
    intros t Ht. destruct (tile_at (c_game c) q r t) eqn:Hat; [|done].
    apply tile_at_key in Hat. by apply Hno in Ht.
  - unfold update. rewrite Hget. reflexivity.
Qed.

Lemma create_character_201 req now s :
  status_code (fst (create_character req now s)) = 201 ->
  declared_character_fields req = None
  /\ is_Some (games s !! cc_game req)
  /\ exists owner,
       players s !! cc_owner req = Some owner
       /\ p_game owner = cc_game req
       /\ exists_ (tiles_filter (cc_game req) (cc_position_q req)
                                (cc_position_r req) (hex_tiles s)) = true.
Proof.
  unfold create_character, CharacterCreateSerializer.validate.
  destruct (declared_character_fields req); [discriminate|].
  destruct (games s !! cc_game req); [|discriminate].
  destruct (players s !! cc_owner req) as [owner|]; [|discriminate].
  destruct (Pos.eqb_spec (p_game owner) (cc_game req)); simpl; [|discriminate].
  destruct (exists_ _) eqn:Hex; simpl; [|discriminate].
  intros _. split_and!; eauto.
Qed.

(** A character is created only for an owner who is a player of the
    same game and only on a tile of that game.  It is then stored under
    a key no character had, idle, with an empty inventory, health at
    [max_health] and stamina at [max_stamina]; a retrieve finds it at
    once.  A refused creation changes nothing. *)
Theorem created_character_is_whole req now s :
  let s' := snd (create_character req now s) in
  let c := new_character req now in
  (status_code (fst (create_character req now s)) = 201 ->
   (exists owner, players s !! cc_owner req = Some owner
                  /\ p_game owner = cc_game req)
   /\ (exists t, t ∈ hex_tiles s
                 /\ tile_key t = (cc_game req, cc_position_q req, cc_position_r req))
   /\ c_health c = c_max_health c /\ c_stamina c = c_max_stamina c
   /\ c_status c = idle /\ c_inventory c = []
   /\ exists pk,
        characters s !! pk = None
        /\ s' = with_characters s (<[pk := c]> (characters s))
        /\ retrieve no_character_query pk s' = (Ok200 (CharacterBody pk c), s'))
  /\ (status_code (fst (create_character req now s)) <> 201 -> s' = s).
Proof.
  intros s' c. subst s' c. split.
  - intros H201.
    apply create_character_201 in H201 as (Hd & [g Hg] & owner & Ho & Hgame & Hex).
    split_and!; try done.
    + eauto.
    + apply exists_filter_true in Hex as (t & Hin & Hat).
      apply tile_at_key in Hat. eauto.
    + exists (fresh (dom (characters s))).
      assert (Hrun : create_character req now s
                     = (Created201 (CharacterBody (fresh (dom (characters s)))
                                                  (new_character req now)),
                        with_characters s
                          (<[fresh (dom (characters s)) := new_character req now]>
                             (characters s)))).
      { unfold create_character, CharacterCreateSerializer.validate.
        rewrite Hd, Hg, Ho, Hgame, Pos.eqb_refl. simpl.
        unfold tiles_filter in Hex |- *. rewrite Hex. reflexivity. }
      rewrite Hrun. simpl. split_and!; try done.
      * apply not_elem_of_dom, is_fresh.
      * unfold retrieve.
        rewrite (get_character_no_query _ _ (new_character req now)); try done.
        simpl. apply lookup_insert_eq.
  - unfold create_character. repeat case_match; simpl; done.
Qed.

(** *** Map items: spawn, loot, update *)

Lemma get_character_frame qp s s' pk :
  characters s' = characters s -> get_character qp s' pk = get_character qp s pk.
Proof. intros H. unfold get_character. rewrite H. reflexivity. Qed.

Lemma spawn_item_201 req s :
  status_code (fst (spawn_item req s)) = 201 ->
  exists_ (tiles_filter (mc_game req) (mc_position_q req) (mc_position_r req)
                        (hex_tiles s)) = true
  /\ spawn_item req s
     = (Created201 (fresh (dom (map_items s)), new_map_item req),
        with_map_items s (<[fresh (dom (map_items s)) := new_map_item req]>
                            (map_items s))).
Proof.
  unfold spawn_item, MapItemCreateSerializer.validate.
  destruct (declared_map_item_fields _ _ _); [discriminate|].
  destruct (games s !! mc_game req); [|discriminate].
  destruct (exists_ _); simpl; [|discriminate]. auto.
Qed.

(** A map item is spawned only on a tile of its game, available and
    uncollected, under a key no item had; any character the request
    resolves that stands in that game at that position can then loot it
    by that key, and gets one more entry in its inventory.  A refused
    spawn changes nothing. *)
Theorem spawned_item_can_be_looted req s :
  let s1 := snd (spawn_item req s) in
  (status_code (fst (spawn_item req s)) = 201 ->
   (exists t, t ∈ hex_tiles s
              /\ tile_key t = (mc_game req, mc_position_q req, mc_position_r req))
   /\ exists k,
        map_items s !! k = None
        /\ map_items s1 !! k = Some (new_map_item req)
        /\ m_is_available (new_map_item req) = true
        /\ m_collected_by (new_map_item req) = None
        /\ forall qp pk c now,
             get_character qp s pk = Some c ->
             c_game c = mc_game req ->
             c_position_q c = mc_position_q req ->
             c_position_r c = mc_position_r req ->
             let c' := looted c (inventory_entry (new_map_item req) now) now in
             fst (loot qp pk (Py.PInt (Z.pos k)) now s1) = Ok200 (CharacterBody pk c')
             /\ length (c_inventory c') = S (length (c_inventory c)))
  /\ (status_code (fst (spawn_item req s)) <> 201 -> s1 = s).
Proof.
  intros s1. subst s1. split.
  - intros H201. apply spawn_item_201 in H201 as [Hex ->]. simpl. split.
    + apply exists_filter_true in Hex as (t & Hin & Hat).
      apply tile_at_key in Hat. eauto.
    + exists (fresh (dom (map_items s))). split_and!; try done.
      * apply not_elem_of_dom, is_fresh.
      * apply lookup_insert_eq.
      * intros qp pk c now Hget Hg Hq Hr. split.
        -- erewrite loot_ok; [reflexivity | | reflexivity | apply to_pk_int | |].
           ++ rewrite <- Hget. by apply get_character_frame.
           ++ simpl. apply lookup_insert_eq.
           ++ apply lootable_by_spec. simpl. auto.
        -- simpl. rewrite length_app. simpl. lia.
  - unfold spawn_item. repeat case_match; simpl; done.
Qed.

(** A looted item is not gone for good: [is_available] is a writable
    field of the map item serializer.  After a successful loot a second
    loot is answered 404; a partial update [{"is_available": true}] of
    the item is answered 200; and the same loot then succeeds again, so
    that the inventory holds the item twice. *)
Theorem reenabled_item_is_looted_again qp pk c item_id k m now now2 now3 s :
  get_character qp s pk = Some c ->
  Py.truthy item_id = true -> to_pk item_id = Some (Z.pos k) ->
  map_items s !! k = Some m -> lootable_by c m = true ->
  let s1 := snd (loot qp pk item_id now s) in
  let s2 := snd (update_item true no_map_item_query k make_available s1) in
  status_code (fst (loot qp pk item_id now s)) = 200
  /\ status_code (fst (loot qp pk item_id now2 s1)) = 404
  /\ status_code (fst (update_item true no_map_item_query k make_available s1)) = 200
  /\ exists c2,
       fst (loot qp pk item_id now3 s2) = Ok200 (CharacterBody pk c2)
       /\ c_inventory c2
          = (c_inventory c ++ [inventory_entry m now; inventory_entry m now3])%list.
Proof.
  intros Hget Htruthy Hpk Hrow Hloot s1 s2. subst s2 s1.
  rewrite (loot_ok qp pk item_id (Z.pos k) now s c m); auto. simpl.
  set (c1 := looted c (inventory_entry m now) now).
  set (m1 := collected m now pk).
  set (s1 := with_map_items _ _).
  assert (Hget1 : get_character qp s1 pk = Some c1).
  { unfold get_character in *. subst s1. simpl. rewrite lookup_insert_eq.
    destruct (characters s !! pk) as [c0|]; [|discriminate].
    destruct (character_in_queryset qp c0) eqn:Hq; [|discriminate].
    injection Hget as ->. change (character_in_queryset qp c1)
      with (character_in_queryset qp c). by rewrite Hq. }
  assert (Hrow1 : map_items s1 !! k = Some m1).
  { subst s1. simpl. apply lookup_insert_eq. }
  split_and!; try done.
  - assert (Hno : forall m0, row (map_items s1) (Z.pos k) = Some m0 ->
                             lootable_by c1 m0 = false).
    { unfold row. intros m0. rewrite Hrow1. intros [= <-].
      unfold lootable_by. simpl. apply andb_false_r. }
    rewrite (loot_missing qp pk item_id (Z.pos k) now2 s1 c1 Hget1 Htruthy Hpk Hno).
    reflexivity.
  - unfold update_item, get_map_item. rewrite Hrow1. reflexivity.
  - unfold update_item, get_map_item. rewrite Hrow1. simpl.
    set (m2 := map_item_updated m1 make_available).
    set (s2 := with_map_items s1 _).
    assert (Hget2 : get_character qp s2 pk = Some c1).
    { rewrite <- Hget1. by apply get_character_frame. }
    assert (Hrow2 : row (map_items s2) (Z.pos k) = Some m2).
    { subst s2. simpl. apply lookup_insert_eq. }
    assert (Hloot2 : lootable_by c1 m2 = true).
    { apply lootable_by_spec in Hloot as (Hg & Hq & Hr & _).
      apply lootable_by_spec. simpl. auto. }
    exists (looted c1 (inventory_entry m2 now3) now3). split.
    + rewrite (loot_ok qp pk item_id (Z.pos k) now3 s2 c1 m2 Hget2 Htruthy Hpk
                       Hrow2 Hloot2). reflexivity.
    + simpl. rewrite <- app_assoc. reflexivity.
Qed.

(** *** Interactables: the use counter *)

Lemma statuses_used i n :
  exhausted i = false ->
  statuses (uses_left i) (S n)
  = 200 :: statuses (uses_left (used i 0 Py.PNone 0)) n.
Proof.
  unfold exhausted, uses_left, statuses. simpl.
  destruct (Z.gtb_spec (i_max_uses i) 0); simpl; [|reflexivity].
  destruct (Z.geb_spec (i_current_uses i) (i_max_uses i)); [discriminate|].
  intros _.
  replace (Z.to_nat (i_max_uses i - i_current_uses i))
    with (S (Z.to_nat (i_max_uses i - (i_current_uses i + 1)))) by lia.
  reflexivity.
Qed.

Lemma statuses_exhausted i n :
  exhausted i = true -> statuses (uses_left i) n = replicate n 400.
Proof.
  unfold exhausted, uses_left, statuses.
  destruct (Z.gtb_spec (i_max_uses i) 0); simpl; [|discriminate].
  destruct (Z.geb_spec (i_current_uses i) (i_max_uses i)); [|discriminate].
  intros _.
  replace (Z.to_nat (i_max_uses i - i_current_uses i)) with 0%nat by lia.
  rewrite Nat.min_0_r, Nat.sub_0_r. reflexivity.
Qed.

(** An active interactable takes exactly as many uses as it has left.
    Of a run of interact attempts, each by a character at its position,
    the first [max_uses - current_uses] are answered 200 and all the
    others 400 when [max_uses] is positive; when it is zero or negative
    every attempt is answered 200. *)
Theorem interact_up_to_limit atts s pk i g :
  interactables s !! pk = Some i -> i_is_active i = true ->
  games s !! i_game i = Some g ->
  Forall (valid_attempt (characters s) i) atts ->
  status_code <$> fst (run (attempt_request pk <$> atts) s)
  = statuses (uses_left i) (length atts).
Proof.
  revert s i. induction atts as [|a atts IH]; intros s i Hrow Hactive Hg Hvalid.
  - unfold statuses. destruct (uses_left i); reflexivity.
  - destruct (exhausted i) eqn:Hlimit.
    + rewrite (run_exhausted pk i); auto.
      rewrite statuses_exhausted by assumption.
      simpl. f_equal. clear. induction atts; simpl; congruence.
    + apply Forall_cons in Hvalid as [[Hq (k & c & Hco)] Hvalid].
      rewrite fmap_cons. unfold attempt_request at 1. cbn [run serve].
      rewrite (interact_ok _ _ _ k c _ _ i g); auto using get_interactable_row.
      set (i1 := used i _ _ _).
      assert (IH1 : status_code
                      <$> fst (run (attempt_request pk <$> atts)
                                   (with_interactables s
                                      (<[pk := i1]> (interactables s))))
                    = statuses (uses_left i1) (length atts)).
      { apply IH; try assumption; apply lookup_insert_eq. }
      destruct (run (attempt_request pk <$> atts) _) as [resps s2].
      cbn [fst length] in IH1 |- *. rewrite fmap_cons, IH1.
      rewrite statuses_used by assumption. reflexivity.
Qed.

Lemma evolved_refl i : evolved i i.
Proof. unfold evolved. split_and!; auto; lia. Qed.

Lemma evolved_used i i' tick record now :
  evolved i i' -> exhausted i' = false -> evolved i (used i' tick record now).
Proof.
  unfold evolved, exhausted. simpl.
  intros (Hg & Hn & Hq & Hr & Ha & Hm & Hc & Hu & Hh & Hl) Hlimit.
  split_and!; auto; try lia.
  rewrite length_app. simpl. lia.
Qed.

Lemma serve_interactables now rq s :
  interactables (snd (serve now rq s)) = interactables s
  \/ exists pk i tick record,
       interactables s !! pk = Some i /\ exhausted i = false
       /\ interactables (snd (serve now rq s))
          = <[pk := used i tick record now]> (interactables s).
Proof.
  destruct rq; simpl;
    try (left; unfold_views; repeat case_match; reflexivity).
  unfold interact, get_interactable.
  destruct (interactables s !! pk) as [i|] eqn:Hrow; [|by left].
  destruct (interactable_in_queryset qp i); [|by left].
  repeat case_match; simpl; try by left.
  right. eexists pk, i, _, _. split_and!; [assumption | | reflexivity].
  unfold exhausted. assumption.
Qed.

Lemma api_serve_evolved now rq s pk i :
  (exists i', interactables s !! pk = Some i' /\ evolved i i') ->
  exists i', interactables (snd (api_serve now rq s)) !! pk = Some i' /\ evolved i i'.
Proof.
  intros (i' & Hrow & Hev).
  destruct rq; simpl;
    try (unfold_views; repeat case_match; simpl; eauto; fail).
  - destruct (serve_interactables now rq s)
      as [-> | (k & i0 & tick & record & Hk & Hlimit & ->)]; [eauto|].
    destruct (decide (k = pk)) as [->|Hne].
    + rewrite lookup_insert_eq. eexists. split; [reflexivity|].
      assert (i0 = i') by congruence. subst i0. by apply evolved_used.
    + rewrite lookup_insert_ne by assumption. eauto.
  - unfold create_interactable. repeat case_match; simpl; eauto.
    exists i'. split; [|assumption].
    rewrite lookup_insert_ne; [assumption|].
    intros Heq. pose proof (is_fresh (dom (interactables s))) as Hfresh.
    rewrite Heq in Hfresh. apply Hfresh. apply elem_of_dom. eauto.
Qed.

(** Whatever requests of the API are served, an interactable stays the
    same object at the same place, as active as it was and with the same
    limit and cooldown; its use counter never decreases and never passes
    a positive [max_uses] it was within; and its history grows by exactly
    one record for each use counted. *)
Theorem interactable_history_in_step rqs s pk i :
  interactables s !! pk = Some i ->
  exists i', interactables (snd (api_run rqs s)) !! pk = Some i' /\ evolved i i'.
Proof.
  intros Hrow.
  apply (api_run_invariant
           (fun s0 => exists i', interactables s0 !! pk = Some i' /\ evolved i i')).
  - intros. by apply api_serve_evolved.
  - exists i. split; [assumption | apply evolved_refl].
Qed.


End Views.

(** *** C4: can_use *)

(** The serializer computes the specified [can_use] whenever the
    interactable was not last used at tick 0 and not in the future. *)
Lemma can_use_agrees i g :
  i_last_used_tick i <> Some 0 ->
  (forall l, i_last_used_tick i = Some l -> l <= g_current_tick g) ->
  InteractableSerializer.get_can_use i g = can_use_as_specified i (g_current_tick g).
Proof.
  intros Hnz Hpast.
  unfold InteractableSerializer.get_can_use, can_use_as_specified.
  destruct ((i_max_uses i >? 0) && (i_current_uses i >=? i_max_uses i)); [reflexivity|].
  destruct (i_last_used_tick i) as [l|]; [|reflexivity].
  specialize (Hpast l eq_refl).
  destruct (Z.eqb_spec l 0) as [->|_]; [congruence|]. simpl.
  destruct (Z.gtb_spec (i_cooldown_ticks i) 0); [reflexivity|].
  destruct (Z.ltb_spec (g_current_tick g - l) (i_cooldown_ticks i)); [lia|reflexivity].
Qed.

(** The gate of the specification's example: cooldown 5, last use at
    tick 10, closed at tick 14 and open at tick 15. *)
Lemma can_use_cooldown_gate i g :
  exhausted i = false -> i_is_active i = true ->
  i_cooldown_ticks i = 5 -> i_last_used_tick i = Some 10 ->
  (g_current_tick g = 14 -> InteractableSerializer.get_can_use i g = false)
  /\ (g_current_tick g = 15 -> InteractableSerializer.get_can_use i g = true).
Proof.
  unfold exhausted, InteractableSerializer.get_can_use.
  intros -> -> -> ->. split; intros ->; reflexivity.
Qed.

(** C4, where the code departs from it.  In a game at tick 0, an
    interactable with [cooldown_ticks = 5] is used: the row written back
    has [last_used_tick = 0], and the [can_use] of the answer is true,
    where the specified one is false: [if obj.last_used_tick] takes the
    tick 0 for an unset one. *)
Theorem can_use_true_after_use_at_tick_zero :
  let g := {| g_name := "Alpha"; g_status := active; g_max_players := 2;
              g_current_tick := 0; g_started_at := None |} in
  let s := {| games := {[ 1%positive := g ]}; players := ∅;
              hex_tiles := [sample_tile];
              characters := {[ 1%positive := sample_character idle ]};
              map_items := ∅;
              interactables := {[ 1%positive := sample_interactable 0 None ]} |} in
  exists i',
    fst (interact sample_isoformat int_key no_interactable_query 1 (Py.PInt 1) 7 s)
    = Ok200 (InteractableBody 1 i' true)
    /\ i_last_used_tick i' = Some 0
    /\ i_cooldown_ticks i' = 5
    /\ InteractableSerializer.get_can_use i' g = true
    /\ can_use_as_specified i' (g_current_tick g) = false.
Proof. eexists. repeat split. Qed.

(** *** C5: join *)

Lemma validate_color_spec value :
  PlayerCreateSerializer.validate_color value = None
  <-> String.prefix "#" value = true /\ String.length value = 7%nat.
Proof.
  unfold PlayerCreateSerializer.validate_color.
  destruct (String.prefix "#" value); simpl.
  - destruct (Nat.eqb_spec (String.length value) 7); simpl;
      split; try discriminate; intuition congruence.
  - split; [discriminate | intros [? _]; discriminate].
Qed.

(** Every colour of the form [#RRGGBB] passes [validate_color]. *)
Lemma validate_color_hex value :
  rrggbb value = true -> PlayerCreateSerializer.validate_color value = None.
Proof.
  intros H. apply validate_color_spec.
  destruct value as [|c digits]; [discriminate|]. simpl in H.
  apply andb_true_iff in H as [H _]. apply andb_true_iff in H as [Hc Hlen].
  apply Ascii.eqb_eq in Hc. apply Nat.eqb_eq in Hlen. subst c.
  simpl. rewrite Hlen. split; [|reflexivity].
  destruct digits; reflexivity.
Qed.

(** The three refusals the code does make: a colour that does not start
    with [#] or is not seven characters long, a game that is neither
    waiting nor active, and a game whose active players are
    [max_players] or more.  Each is a 400 that changes nothing. *)
Lemma join_refused user req now s :
  (exists c, j_color req = Some c
             /\ (String.prefix "#" c = false \/ String.length c <> 7%nat))
  \/ (exists g, games s !! j_game req = Some g
                /\ (joinable (g_status g) = false
                    \/ PlayerCreateSerializer.active_player_count (players s) (j_game req)
                       >= g_max_players g)) ->
  status_code (fst (join user req now s)) = 400 /\ snd (join user req now s) = s.
Proof.
  intros H. unfold join.
  destruct (declared_player_fields req); [auto|].
  destruct H as [(c & Hc & Hbad) | (g & Hg & Hbad)].
  - rewrite Hc. simpl.
    destruct (PlayerCreateSerializer.validate_color c) eqn:Hv; [auto|].
    apply validate_color_spec in Hv as [? ?]. destruct Hbad; congruence.
  - destruct (on_field _ _); [auto|]. rewrite Hg.
    unfold PlayerCreateSerializer.validate.
    destruct Hbad as [-> | Hfull]; simpl; [auto|].
    destruct (joinable (g_status g)); simpl; [|auto].
    destruct (Z.geb_spec (PlayerCreateSerializer.active_player_count
                            (players s) (j_game req)) (g_max_players g));
      [auto | lia].
Qed.

(** Otherwise, when the declared checks pass and the user has no player
    in the game yet, a player of the requesting user is created under a
    key no row had. *)
Lemma join_creates user req now s g :
  declared_player_fields req = None ->
  on_field PlayerCreateSerializer.validate_color (j_color req) = None ->
  games s !! j_game req = Some g ->
  joinable (g_status g) = true ->
  PlayerCreateSerializer.active_player_count (players s) (j_game req)
  < g_max_players g ->
  has_player (players s) (j_game req) user = false ->
  exists pk,
    players s !! pk = None
    /\ join user req now s
       = (Created201 (PlayerBody pk (new_player user req now)),
          with_players s (<[pk := new_player user req now]> (players s)))
    /\ p_user (new_player user req now) = user
    /\ p_game (new_player user req now) = j_game req.
Proof.
  intros Hdecl Hcolor Hg Hjoin Hroom Hnew.
  exists (fresh (dom (players s))). split; [|split; [|split; reflexivity]].
  - apply not_elem_of_dom. apply is_fresh.
  - unfold join, PlayerCreateSerializer.validate.
    rewrite Hdecl, Hcolor, Hg, Hjoin. simpl.
    destruct (Z.geb_spec (PlayerCreateSerializer.active_player_count
                            (players s) (j_game req)) (g_max_players g)); [lia|].
    rewrite Hnew. reflexivity.
Qed.

(** C5, where the code departs from it.  The colour [#GGGGGG] is not of
    the form [#RRGGBB], and a join with it into a waiting game with room
    is answered 201, with the player created. *)
Theorem join_accepts_non_hex_color :
  let s := sample_store idle (sample_interactable 0 None) in
  rrggbb "#GGGGGG" = false
  /\ PlayerCreateSerializer.validate_color "#GGGGGG" = None
  /\ status_code (fst (join 7 (sample_join "#GGGGGG") 0 s)) = 201
  /\ size (players (snd (join 7 (sample_join "#GGGGGG") 0 s))) = 1%nat.
Proof. repeat split. Qed.

(** *** C7: the item catalogue *)

Section ItemRules.

Import Items.

Variable strip : string -> string.
Hypothesis strip_empty : strip "" = "".

Lemma run_field_carried {A : Type} required partial
    (declared : A -> validated A) method (v : A) :
  run_field required partial declared method (Some v) = true ->
  exists v', declared v = Valid v'
             /\ match method with
                | Some validate => is_valid (validate v') = true
                | None => True
                end.
Proof.
  simpl. destruct (declared v) as [v'|]; [|discriminate].
  intros H. exists v'. split; [reflexivity|].
  destruct method; [assumption | exact I].
Qed.

Lemma run_field_required {A : Type} (declared : A -> validated A) method field :
  run_field true false declared method field = true -> is_Some field.
Proof. destruct field; [eauto | discriminate]. Qed.

Lemma declared_name_valid names n n' :
  declared_name strip names n = Valid n' -> n <> "".
Proof.
  unfold declared_name. intros H ->. rewrite strip_empty in H. discriminate.
Qed.

Lemma mem_In x l : Py.mem x l = true -> In x l.
Proof.
  unfold Py.mem. intros H. apply existsb_exists in H as (y & Hin & Heq).
  apply String.eqb_eq in Heq. congruence.
Qed.

Lemma declared_rarity_valid x x' :
  declared_rarity x = Valid x' -> In x ["common"; "rare"; "legendary"].
Proof.
  unfold declared_rarity. destruct (Py.mem x rarity_choices) eqn:H; [|discriminate].
  intros _. by apply mem_In.
Qed.

Lemma stack_size_valid z :
  is_valid (ItemCreateSerializer.validate_stack_size z) = true -> 1 <= z <= 9999.
Proof.
  unfold ItemCreateSerializer.validate_stack_size.
  destruct (Z.ltb_spec z 1); [discriminate|].
  destruct (Z.gtb_spec z 9999); [discriminate|]. lia.
Qed.

Lemma cooldown_valid z :
  is_valid (ItemCreateSerializer.validate_cooldown z) = true -> 0 <= z.
Proof.
  unfold ItemCreateSerializer.validate_cooldown.
  destruct (Z.ltb_spec z 0); [discriminate|]. lia.
Qed.

Lemma upgrade_level_valid z :
  is_valid (ItemCreateSerializer.validate_upgrade_level z) = true -> 0 <= z <= 100.
Proof.
  unfold ItemCreateSerializer.validate_upgrade_level.
  destruct (Z.ltb_spec z 0); [discriminate|].
  destruct (Z.gtb_spec z 100); [discriminate|]. lia.
Qed.

Lemma drop_rate_valid q :
  is_valid (ItemCreateSerializer.validate_drop_rate q) = true ->
  (0 <= q)%Q /\ (q <= 1)%Q.
Proof.
  unfold ItemCreateSerializer.validate_drop_rate, Py.Qltb.
  destruct (Qle_bool 0 q) eqn:H0; [|discriminate].
  destruct (Qle_bool q 1) eqn:H1; [|discriminate].
  intros _. split; by apply Qle_bool_iff.
Qed.

Lemma durability_valid z :
  is_valid (ItemCreateSerializer.validate_durability (Some z)) = true -> 0 <= z.
Proof.
  unfold ItemCreateSerializer.validate_durability.
  destruct (Z.ltb_spec z 0); [discriminate|]. lia.
Qed.

Lemma stat_modifiers_valid v :
  is_valid (ItemCreateSerializer.validate_stat_modifiers v) = true ->
  v = Py.PNone
  \/ exists items, v = Py.PDict items
                   /\ Forall (fun kv => Py.is_int_or_float (snd kv) = true) items.
Proof.
  destruct v; simpl; try discriminate; [by left|].
  destruct (forallb _ kv) eqn:H; [|discriminate].
  intros _. right. exists kv. split; [reflexivity|].
  apply Forall_forall. intros x Hx. rewrite forallb_forall in H.
  apply H. by apply list_elem_of_In.
Qed.

(** What the validation of a request does ensure: the rules of the
    catalogue, with Python's own test of a number, which a boolean
    passes. *)
Lemma create_validation_sound names r :
  ItemCreateSerializer.accepts strip names r = true ->
  catalogue_rules Py.is_int_or_float false r.
Proof.
  unfold ItemCreateSerializer.accepts. rewrite !andb_true_iff.
  intros [[[[[[[[Hn Ht] Hr] Hs] Hc] Hu] Hd] Hdur] Hm].
  unfold catalogue_rules. split_and!.
  - intros _. split; eapply run_field_required; eassumption.
  - intros n E. rewrite E in Hn.
    apply run_field_carried in Hn as (n' & Hn & _). by apply declared_name_valid in Hn.
  - intros x E. rewrite E in Hr.
    apply run_field_carried in Hr as (x' & Hr & _). by apply declared_rarity_valid in Hr.
  - intros z E. rewrite E in Hs.
    apply run_field_carried in Hs as (? & [= <-] & Hs). by apply stack_size_valid.
  - intros z E. rewrite E in Hc.
    apply run_field_carried in Hc as (? & [= <-] & Hc). by apply cooldown_valid.
  - intros z E. rewrite E in Hu.
    apply run_field_carried in Hu as (? & [= <-] & Hu). by apply upgrade_level_valid.
  - intros q E. rewrite E in Hd.
    apply run_field_carried in Hd as (? & [= <-] & Hd). by apply drop_rate_valid.
  - intros z E. rewrite E in Hdur.
    apply run_field_carried in Hdur as (? & [= <-] & Hdur). by apply durability_valid.
  - intros v E. rewrite E in Hm.
    apply run_field_carried in Hm as (? & [= <-] & Hm). by apply stat_modifiers_valid.
Qed.

Lemma update_validation_sound names partial r :
  ItemUpdateSerializer.accepts strip names partial r = true ->
  catalogue_rules Py.is_int_or_float partial r.
Proof.
  unfold ItemUpdateSerializer.accepts. rewrite !andb_true_iff.
  intros [[[[[[[[Hn Ht] Hr] Hs] Hc] Hu] Hd] Hdur] Hm].
  unfold catalogue_rules. split_and!.
  - intros ->. split; eapply run_field_required; eassumption.
  - intros n E. rewrite E in Hn.
    apply run_field_carried in Hn as (n' & Hn & _). by apply declared_name_valid in Hn.
  - intros x E. rewrite E in Hr.
    apply run_field_carried in Hr as (x' & Hr & _). by apply declared_rarity_valid in Hr.
  - intros z E. rewrite E in Hs.
    apply run_field_carried in Hs as (? & [= <-] & Hs). by apply stack_size_valid.
  - intros z E. rewrite E in Hc.
    apply run_field_carried in Hc as (? & [= <-] & Hc). by apply cooldown_valid.
  - intros z E. rewrite E in Hu.
    apply run_field_carried in Hu as (? & [= <-] & Hu). by apply upgrade_level_valid.
  - intros q E. rewrite E in Hd.
    apply run_field_carried in Hd as (? & [= <-] & Hd). by apply drop_rate_valid.
  - intros z E. rewrite E in Hdur.
    apply run_field_carried in Hdur as (? & [= <-] & Hdur). by apply durability_valid.
  - intros v E. rewrite E in Hm.
    apply run_field_carried in Hm as (? & [= <-] & Hm). by apply stat_modifiers_valid.
Qed.

(** A create, and an update that is not partial, is refused when it
    does not carry [type], whatever else it carries. *)
Lemma create_requires_type names r :
  ItemCreateSerializer.accepts strip names r = true -> is_Some (type r).
Proof.
  unfold ItemCreateSerializer.accepts. rewrite !andb_true_iff.
  intros [[[[[[[[_ Ht] _] _] _] _] _] _] _].
  eapply run_field_required; eassumption.
Qed.

Lemma update_requires_type names r :
  ItemUpdateSerializer.accepts strip names false r = true -> is_Some (type r).
Proof.
  unfold ItemUpdateSerializer.accepts. rewrite !andb_true_iff.
  intros [[[[[[[[_ Ht] _] _] _] _] _] _] _].
  eapply run_field_required; eassumption.
Qed.

(** A name that a row of the catalogue has is refused. *)
Lemma create_requires_fresh_name names r n :
  ItemCreateSerializer.accepts strip names r = true ->
  name r = Some n -> ~ In (strip n) names.
Proof.
  unfold ItemCreateSerializer.accepts. rewrite !andb_true_iff.
  intros [[[[[[[[Hn _] _] _] _] _] _] _] _] E. rewrite E in Hn.
  apply run_field_carried in Hn as (n' & Hn & _). revert Hn.
  unfold declared_name.
  destruct (String.eqb (strip n) ""); [discriminate|].
  destruct (Nat.ltb 255 _); [discriminate|].
  destruct (Py.mem (strip n) names) eqn:Hmem; [discriminate|].
  intros _ Hin. unfold Py.mem in Hmem.
  assert (existsb (String.eqb (strip n)) names = true) as Hex; [|congruence].
  apply existsb_exists. exists (strip n). split; [assumption | apply String.eqb_refl].
Qed.

End ItemRules.

(** C7, where the code departs from it.  The request [r] carries the
    three required columns (name 'Sword', type 'weapon', rarity
    'common'), every numeric field within its bounds, and the
    [stat_modifiers] [{"strength": true}]; no row of the catalogue is
    named 'Sword', and [str.strip] leaves 'Sword' and 'weapon' as they
    are.  As a create request and as an update request [r] passes
    validation, though [true] is not a number: [isinstance(val, (int,
    float))] holds of a boolean, [bool] being a subclass of [int].  The
    same request with the text '5' in the place of [true] is refused
    with 'must be a number': the check is meant for these values, and
    misses the boolean. *)
Theorem validation_accepts_boolean_modifier :
  let modifiers := Py.PDict [("strength", Py.PBool true)] in
  let r := sample_item_request modifiers in
  let names := ["Shield"; "Potion"] in
  r = {| Items.name := Some "Sword"; Items.type := Some "weapon";
         Items.rarity := Some "common"; Items.stack_size := Some 1;
         Items.cooldown := Some 0; Items.upgrade_level := Some 0;
         Items.drop_rate := Some (1 # 2)%Q; Items.durability := Some (Some 10);
         Items.stat_modifiers := Some modifiers |}
  /\ ItemCreateSerializer.accepts (fun x => x) names r = true
  /\ ItemUpdateSerializer.accepts (fun x => x) names false r = true
  /\ ItemCreateSerializer.validate_stat_modifiers modifiers = Items.Valid modifiers
  /\ ItemUpdateSerializer.validate_stat_modifiers modifiers = Items.Valid modifiers
  /\ ItemCreateSerializer.accepts (fun x => x) names
       (sample_item_request (Py.PDict [("strength", Py.PStr "5")])) = false
  /\ ItemUpdateSerializer.accepts (fun x => x) names false
       (sample_item_request (Py.PDict [("strength", Py.PStr "5")])) = false
  /\ json_number (Py.PBool true) = false
  /\ ~ catalogue_rules json_number false r.
Proof.
  split_and!; try reflexivity.
  intros (_ & _ & _ & _ & _ & _ & _ & _ & Hm).
  destruct (Hm _ eq_refl) as [Hnone | (items & [= <-] & Hall)]; [discriminate|].
  apply Forall_cons in Hall as [Hbool _]. discriminate.
Qed.

(** *** The item catalogue: listings and activation *)

Section ItemViews.

Import ItemViewSet.

Variable icontains : string -> string -> bool.

Lemma get_object_no_query (items : gmap positive Item) pk :
  get_object icontains no_query items pk = items !! pk.
Proof. unfold get_object. destruct (items !! pk); reflexivity. Qed.

Lemma truthy_text t : t <> "" -> Py.truthy (Py.PStr t) = true.
Proof. intros Hne. simpl. destruct (String.eqb_spec t ""); [done | reflexivity]. Qed.

Lemma in_queryset_rarity qp item r :
  q_rarity qp = Some r -> r <> "" ->
  in_queryset icontains qp item = true -> rarity item = r.
Proof.
  intros Hr Hne. unfold in_queryset. rewrite !andb_true_iff.
  intros [[[[[_ H] _] _] _] _]. unfold filter_text in H.
  rewrite Hr, (truthy_text r Hne) in H. by apply String.eqb_eq.
Qed.

Lemma in_queryset_type qp item t :
  q_type qp = Some t -> t <> "" ->
  in_queryset icontains qp item = true -> type item = t.
Proof.
  intros Ht Hne. unfold in_queryset. rewrite !andb_true_iff.
  intros [[[[[H _] _] _] _] _]. unfold filter_text in H.
  rewrite Ht, (truthy_text t Hne) in H. by apply String.eqb_eq.
Qed.

(** [by_rarity] and [by_type] answer 400 without their parameter, or
    with an empty one.  With it they answer the very rows the plain
    listing answers for the same query string, the queryset having
    applied the filter already; each of these rows has the rarity, or
    the type, asked for. *)
Theorem shortcuts_are_the_listing qp :
  (q_rarity qp = None \/ q_rarity qp = Some "" ->
   by_rarity icontains qp = BadRequest400 "rarity parameter is required")
  /\ (forall r, q_rarity qp = Some r -> r <> "" ->
        exists rows,
          by_rarity icontains qp = Ok200 rows
          /\ forall item, rows item = in_queryset icontains qp item
                          /\ (rows item = true -> rarity item = r))
  /\ (q_type qp = None \/ q_type qp = Some "" ->
      by_type icontains qp = BadRequest400 "type parameter is required")
  /\ (forall t, q_type qp = Some t -> t <> "" ->
        exists rows,
          by_type icontains qp = Ok200 rows
          /\ forall item, rows item = in_queryset icontains qp item
                          /\ (rows item = true -> type item = t)).
Proof.
  split_and!.
  - unfold by_rarity. intros [-> | ->]; reflexivity.
  - intros r Hr Hne. unfold by_rarity. rewrite Hr, (truthy_text r Hne).
    cbn [negb]. eexists. split; [reflexivity|]. intros item. cbv beta.
    destruct (in_queryset icontains qp item) eqn:Hin; cbn [andb]; [|done].
    rewrite (in_queryset_rarity qp item r Hr Hne Hin), String.eqb_refl. done.
  - unfold by_type. intros [-> | ->]; reflexivity.
  - intros t Ht Hne. unfold by_type. rewrite Ht, (truthy_text t Hne).
    cbn [negb]. eexists. split; [reflexivity|]. intros item. cbv beta.
    destruct (in_queryset icontains qp item) eqn:Hin; cbn [andb]; [|done].
    rewrite (in_queryset_type qp item t Ht Hne Hin), String.eqb_refl. done.
Qed.

(** Activation writes [is_active] and the [auto_now] column of one row
    and nothing else.  The activated item is in the listing
    [?is_active=true] when it is in the plain one, and for a request
    with [?is_active=false] it is not found any more; a deactivation
    after it leaves the catalogue as a deactivation alone would: the last
    of the two wins. *)
Theorem activation_last_wins qp pk item now now2 (items : gmap positive Item) :
  get_object icontains qp items pk = Some item ->
  let items1 := snd (activate icontains qp pk now items) in
  fst (activate icontains qp pk now items) = Ok200 (pk, set_active item true now)
  /\ items1 = <[pk := set_active item true now]> items
  /\ name (set_active item true now) = name item
  /\ type (set_active item true now) = type item
  /\ rarity (set_active item true now) = rarity item
  /\ category (set_active item true now) = category item
  /\ sub_category (set_active item true now) = sub_category item
  /\ in_queryset icontains (only_active true) (set_active item true now)
     = in_queryset icontains no_query item
  /\ get_object icontains (only_active false) items1 pk = None
  /\ deactivate icontains no_query pk now2 items1
     = (Ok200 (pk, set_active item false now2),
        <[pk := set_active item false now2]> items).
Proof.
  intros Hget items1. subst items1. unfold activate. rewrite Hget. simpl.
  split_and!; try done.
  - unfold get_object. rewrite lookup_insert_eq. reflexivity.
  - unfold deactivate. rewrite get_object_no_query, lookup_insert_eq.
    simpl. rewrite insert_insert_eq. reflexivity.
Qed.

End ItemViews.

(** ** The theorems at work in the small world *)

Lemma sample_tiles_unique st i : tiles_unique (hex_tiles (sample_store st i)).
Proof. unfold tiles_unique. simpl. apply NoDup_singleton. Qed.

Lemma sample_colocated st i :
  i_game i = 1%positive -> i_position_q i = 0 -> i_position_r i = 0 ->
  colocated int_key (characters (sample_store st i)) i (Py.PInt 1) 1
            (sample_character st).
Proof. intros Hg Hq Hr. unfold colocated. rewrite Hg, Hq, Hr. repeat split. Qed.

(** C1 as the claim words it fails on a dead character: a passable tile
    lies at (0, 0), and the move is answered 404. *)
Lemma move_refused_for_dead_character :
  let s := sample_store dead (sample_interactable 0 None) in
  ~ (status_code (fst (move no_character_query 1 (Some 0) (Some 0) 7 s)) = 200
     <-> passable_tile_at (hex_tiles s) (c_game (sample_character dead)) 0 0).
Proof.
  intros s [_ H].
  assert (Htile : passable_tile_at (hex_tiles s) (c_game (sample_character dead)) 0 0).
  { exists sample_tile. repeat split. by left. }
  specialize (H Htile). vm_compute in H. discriminate.
Qed.

(** C1 on a living character standing on the passable tile (0, 0). *)
Lemma move_iff_passable_tile_witness :
  let s := sample_store idle (sample_interactable 0 None) in
  get_character no_character_query s 1 = Some (sample_character idle)
  /\ tiles_unique (hex_tiles s)
  /\ (status_code (fst (move no_character_query 1 (Some 0) (Some 0) 7 s)) = 200
      <-> passable_tile_at (hex_tiles s) 1 0 0).
Proof.
  intros s.
  assert (H1 : get_character no_character_query s 1 = Some (sample_character idle))
    by reflexivity.
  assert (H2 : tiles_unique (hex_tiles s)) by apply sample_tiles_unique.
  split; [exact H1|]. split; [exact H2|].
  exact (proj1 (move_iff_passable_tile no_character_query 1 (sample_character idle)
                                       0 0 7 s H1 H2)).
Defined.



(** C3 on four attempts at the chest: two uses, each with its record
    in the history, then the limit. *)
Lemma interact_twice_then_maximum_witness :
  let i := sample_interactable 0 None in
  let s := sample_store idle i in
  let outcome := run sample_isoformat int_key
                     (attempt_request 1 <$> [sample_attempt; sample_attempt;
                                             sample_attempt; sample_attempt]) s in
  let record := Py.PDict [ ("character_id", Py.PInt 1);
                           ("character_name", Py.PStr "Scout");
                           ("tick", Py.PInt 12);
                           ("timestamp", Py.PStr "1970-01-01T00:00:00+00:00");
                           ("result", Py.PStr "success") ] in
  status_code <$> fst outcome = [200; 200; 400; 400]
  /\ (exists i2, interactables (snd outcome) !! 1%positive = Some i2
                 /\ i_current_uses i2 = 2
                 /\ i_last_used_tick i2 = Some 12
                 /\ i_interactions i2 = [record; record]).
Proof.
  intros i s outcome record. subst outcome.
  assert (Hco : colocated int_key (characters s) i (Py.PInt 1) 1 (sample_character idle))
    by (apply sample_colocated; reflexivity).
  assert (Hrest : Forall (valid_attempt int_key (characters s) i)
                         [sample_attempt; sample_attempt]).
  { repeat constructor; exists 1%positive, (sample_character idle); exact Hco. }
  destruct (interact_twice_then_maximum sample_isoformat int_key s 1 i sample_game
              sample_attempt 1 (sample_character idle)
              sample_attempt 1 (sample_character idle)
              [sample_attempt; sample_attempt]
              eq_refl eq_refl eq_refl eq_refl eq_refl eq_refl Hco eq_refl Hco Hrest)
    as (Hrun & _ & Huses & _ & Htick & _ & Hhistory & Hrecord & _).
  rewrite Hrun. split; [reflexivity|].
  eexists. split; [apply lookup_insert_eq|].
  split; [exact Huses|]. split; [exact Htick|].
  rewrite Hhistory, Hrecord. reflexivity.
Defined.

(** C6 on a second tile at (0, 0). *)
Lemma tile_key_unique_witness :
  let s := sample_store idle (sample_interactable 0 None) in
  (exists t, t ∈ hex_tiles s /\ tile_key t = (1%positive, 0, 0))
  /\ status_code (fst (create_tile sample_tile_request s)) = 400
  /\ snd (create_tile sample_tile_request s) = s
  /\ tiles_unique
       (hex_tiles (snd (run sample_isoformat int_key
                            [(1, CreateTile sample_tile_request);
                             (2, CreateTile sample_tile_request)] s))).
Proof.
  intros s.
  assert (H1 : exists t, t ∈ hex_tiles s /\ tile_key t = (1%positive, 0, 0)).
  { exists sample_tile. split; [by left | reflexivity]. }
  destruct (tile_key_unique sample_isoformat int_key sample_tile_request s)
    as [Hdup Hrun].
  destruct (Hdup H1) as [H400 Hsame].
  split; [exact H1|]. split; [exact H400|]. split; [exact Hsame|].
  apply Hrun. apply sample_tiles_unique.
Defined.

(** C8 on the dead scout. *)
Lemma dead_character_not_found_witness :
  let s := sample_store dead (sample_interactable 0 None) in
  characters s !! 1%positive = Some (sample_character dead)
  /\ c_status (sample_character dead) = dead
  /\ move no_character_query 1 (Some 0) (Some 0) 7 s
     = (NotFound404 detail_not_found, s)
  /\ loot sample_isoformat int_key no_character_query 1 (Py.PInt 1) 7 s
     = (NotFound404 detail_not_found, s).
Proof.
  intros s.
  assert (H1 : characters s !! 1%positive = Some (sample_character dead)) by reflexivity.
  assert (H2 : c_status (sample_character dead) = dead) by reflexivity.
  destruct (dead_character_not_found sample_isoformat int_key s 1
              (sample_character dead) H1 H2)
    as (_ & _ & Hmove & Hloot & _).
  split; [exact H1|]. split; [exact H2|]. split; [apply Hmove | apply Hloot].
Defined.

(** C9 on the chest used at tick 10, cooldown 5, in a game at tick 12. *)
Lemma interact_ignores_cooldown_witness :
  let i := sample_interactable 1 (Some 10) in
  let s := sample_store idle i in
  i_cooldown_ticks i > 0
  /\ g_current_tick sample_game - 10 < i_cooldown_ticks i
  /\ InteractableSerializer.get_can_use i sample_game = false
  /\ status_code (fst (interact sample_isoformat int_key no_interactable_query 1
                                (Py.PInt 1) 7 s)) = 200.
Proof.
  intros i s.
  assert (Hco : colocated int_key (characters s) i (Py.PInt 1) 1 (sample_character idle))
    by (apply sample_colocated; reflexivity).
  assert (H1 : i_cooldown_ticks i > 0) by reflexivity.
  assert (H2 : g_current_tick sample_game - 10 < i_cooldown_ticks i) by reflexivity.
  assert (H3 : (10 : Z) <> 0) by discriminate.
  destruct (interact_ignores_cooldown sample_isoformat int_key
              no_interactable_query 1 (Py.PInt 1) 1 (sample_character idle) 7 s i
              sample_game 10 eq_refl Hco eq_refl eq_refl eq_refl H1 eq_refl H3 H2)
    as (Hcan & Hrun & _).
  split; [exact H1|]. split; [exact H2|]. split; [exact Hcan|].
  rewrite Hrun. reflexivity.
Defined.

(** C10 as the claim words it fails when the character does not
    resolve: a loot without [item_id] on a dead character is answered
    404, not 400. *)
Lemma loot_without_id_on_dead_character_is_404 :
  let s := sample_store dead (sample_interactable 0 None) in
  Py.truthy Py.PNone = false
  /\ status_code (fst (loot sample_isoformat int_key no_character_query 1
                            Py.PNone 7 s)) = 404.
Proof. split; reflexivity. Qed.

(** C10 on the item id 0 and on the empty text as character id. *)
Lemma falsy_id_is_required_witness :
  let s := sample_store idle (sample_interactable 0 None) in
  Py.truthy (Py.PInt 0) = false
  /\ Py.truthy (Py.PStr "") = false
  /\ loot sample_isoformat int_key no_character_query 1 (Py.PInt 0) 7 s
     = (BadRequest400 "item_id is required", s)
  /\ interact sample_isoformat int_key no_interactable_query 1 (Py.PStr "") 7 s
     = (BadRequest400 "character_id is required", s).
Proof.
  intros s.
  destruct (falsy_id_is_required sample_isoformat int_key) as [Hloot Hinteract].
  split; [reflexivity|]. split; [reflexivity|]. split.
  - exact (Hloot no_character_query 1%positive (sample_character idle) (Py.PInt 0)
                 7 s eq_refl eq_refl).
  - exact (Hinteract no_interactable_query 1%positive (sample_interactable 0 None)
                     (Py.PStr "") 7 s eq_refl eq_refl).
Defined.

(** *** The further theorems at work *)

Lemma sample_healthy st i : healthy (sample_store st i).
Proof.
  intros pk c H. unfold sample_store in H. cbn [characters] in H.
  apply lookup_singleton_Some in H as [_ <-]. simpl. lia.
Qed.

Lemma empty_within_capacity : within_capacity empty_store.
Proof. split; intros ? ? H; simpl in H; by rewrite lookup_empty in H. Qed.

(** Alice can join the waiting game, and still can once it is started. *)
Lemma start_keeps_joinable_witness :
  let s := sample_store idle (sample_interactable 0 None) in
  status_code (fst (join 7 (sample_join "#FF0000") 3 s)) = 201
  /\ status_code (fst (join 7 (sample_join "#FF0000") 3 (snd (start 1 2 s)))) = 201.
Proof.
  intros s.
  assert (H : status_code (fst (join 7 (sample_join "#FF0000") 3 s)) = 201)
    by reflexivity.
  split; [exact H|]. exact (start_keeps_joinable 7 (sample_join "#FF0000") 3 s 1 2 H).
Defined.

(** A game created for no player at all is never joined. *)
Lemma create_game_waiting_witness :
  status_code (fst (create_game sample_game_create empty_store)) = 201
  /\ exists pk,
       games (snd (create_game sample_game_create empty_store)) !! pk
       = Some (new_game sample_game_create)
       /\ status_code
            (fst (join 7 {| j_game := pk; j_player_name := "Alice";
                            j_color := None; j_avatar := None |} 3
                       (snd (create_game sample_game_create empty_store)))) = 400.
Proof.
  assert (H : status_code (fst (create_game sample_game_create empty_store)) = 201)
    by reflexivity.
  split; [exact H|].
  destruct (create_game_waiting sample_isoformat int_key sample_game_create
                                empty_store H)
    as (_ & _ & _ & pk & _ & Hrow & _ & _ & _ & Hclosed).
  exists pk. split; [exact Hrow|].
  exact (Hclosed ltac:(simpl; lia) [] 7%positive
                 {| j_game := pk; j_player_name := "Alice";
                    j_color := None; j_avatar := None |} 3 eq_refl).
Defined.

(** From the empty store, a game for two and three joins. *)
Lemma capacity_kept_witness :
  within_capacity
    (snd (api_run sample_isoformat int_key
            [(1, CreateGame {| gc_name := "Gamma"; gc_max_players := Some 2;
                               gc_tick_duration_minutes := None;
                               gc_map_name := "plain"; gc_map_width := None;
                               gc_map_height := None |});
             (2, Core (Join 7 (sample_join "#FF0000")));
             (3, Core (Join 8 (sample_join "#00FF00")));
             (4, Core (Join 9 (sample_join "#0000FF")))]
            empty_store)).
Proof. apply capacity_kept. exact empty_within_capacity. Defined.

Lemma join_once_per_user_witness :
  let s := sample_store idle (sample_interactable 0 None) in
  let s1 := snd (join 7 (sample_join "#FF0000") 3 s) in
  status_code (fst (join 7 (sample_join "#FF0000") 3 s)) = 201
  /\ snd (join 7 (sample_join "#00FF00") 4 s1) = s1.
Proof.
  intros s s1.
  assert (H : status_code (fst (join 7 (sample_join "#FF0000") 3 s)) = 201)
    by reflexivity.
  split; [exact H|].
  exact (proj2 (join_once_per_user sample_isoformat int_key 7
                  (sample_join "#FF0000") 3 s H [] (sample_join "#00FF00") 4 eq_refl)).
Defined.

Lemma join_counts_one_witness :
  let s := sample_store idle (sample_interactable 0 None) in
  PlayerCreateSerializer.active_player_count
    (players (snd (join 7 (sample_join "#FF0000") 3 s))) 1
  = PlayerCreateSerializer.active_player_count (players s) 1 + 1.
Proof.
  intros s.
  exact (proj1 (join_counts_one 7 (sample_join "#FF0000") 3 s eq_refl)).
Defined.

Lemma nearby_covers_hex_disk_witness :
  let s := sample_store idle (sample_interactable 0 None) in
  hex_distance 0 0 0 0 <= 1
  /\ sample_tile ∈ answered (nearby (Some (Py.IntText 1)) (Some (Py.IntText 0))
                                    (Some (Py.IntText 0)) (Some (Py.IntText 1)) s).
Proof.
  intros s.
  assert (Hin : sample_tile ∈ hex_tiles s) by (by left).
  assert (Hd : hex_distance 0 0 0 0 <= 1) by (vm_compute; discriminate).
  split; [exact Hd|].
  exact (proj1 (nearby_covers_hex_disk 1 0 0 1 s sample_tile Hin eq_refl
                                       ltac:(lia)) Hd).
Defined.

Lemma tile_update_excludes_itself_witness :
  HexTileSerializer.validate (Some 0%nat) [sample_tile] 1 0 0 = None.
Proof.
  exact (proj1 (tile_update_excludes_itself [sample_tile] 0 sample_tile
                  (sample_tiles_unique idle (sample_interactable 0 None)) eq_refl)).
Defined.

Lemma health_bounded_witness :
  healthy
    (snd (api_run sample_isoformat int_key
            [(1, Core (Move no_character_query 1 (Some 0) (Some 0)));
             (2, Core (Update true no_character_query 1 (reposition 4 4)))]
            (sample_store idle (sample_interactable 0 None)))).
Proof. apply health_bounded. apply sample_healthy. Defined.

Lemma update_skips_tile_check_witness :
  let s := sample_store idle (sample_interactable 0 None) in
  status_code (fst (move no_character_query 1 (Some 5) (Some 5) 7 s)) = 400
  /\ status_code (fst (update true no_character_query 1 (reposition 5 5) 7 s)) = 200.
Proof.
  intros s.
  assert (Hno : forall t, t ∈ hex_tiles s -> tile_key t <> (1%positive, 5, 5)).
  { intros t Ht. apply list_elem_of_singleton in Ht. subst t. discriminate. }
  destruct (update_skips_tile_check no_character_query 1 (sample_character idle)
              5 5 7 s eq_refl Hno) as (Hmove & Hupdate & _).
  rewrite Hmove, Hupdate. split; reflexivity.
Defined.

Lemma spawned_item_can_be_looted_witness :
  let s := sample_store idle (sample_interactable 0 None) in
  status_code (fst (spawn_item sample_spawn s)) = 201
  /\ exists k,
       status_code (fst (loot sample_isoformat int_key no_character_query 1
                              (Py.PInt (Z.pos k)) 7 (snd (spawn_item sample_spawn s))))
       = 200.
Proof.
  intros s.
  assert (H : status_code (fst (spawn_item sample_spawn s)) = 201) by reflexivity.
  split; [exact H|].
  destruct (proj1 (spawned_item_can_be_looted sample_isoformat int_key
                     (fun z => eq_refl) sample_spawn s) H)
    as (_ & k & _ & _ & _ & _ & Hloot).
  exists k.
  destruct (Hloot no_character_query 1%positive (sample_character idle) 7
                  eq_refl eq_refl eq_refl eq_refl) as [-> _].
  reflexivity.
Defined.

Lemma reenabled_item_is_looted_again_witness :
  let s := sample_store idle (sample_interactable 0 None) in
  let s1 := snd (loot sample_isoformat int_key no_character_query 1 (Py.PInt 1) 7 s) in
  status_code (fst (loot sample_isoformat int_key no_character_query 1
                         (Py.PInt 1) 8 s1)) = 404
  /\ status_code (fst (update_item true no_map_item_query 1 make_available s1)) = 200.
Proof.
  intros s s1.
  destruct (reenabled_item_is_looted_again sample_isoformat int_key
              no_character_query 1 (sample_character idle) (Py.PInt 1) 1
              sample_item 7 8 9 s eq_refl eq_refl eq_refl eq_refl eq_refl)
    as (_ & H404 & H200 & _).
  split; [exact H404 | exact H200].
Defined.

Lemma interact_up_to_limit_witness :
  let i := sample_interactable 1 (Some 3) in
  let s := sample_store idle i in
  status_code <$> fst (run sample_isoformat int_key
                           (attempt_request 1 <$> [sample_attempt; sample_attempt;
                                                   sample_attempt]) s)
  = [200; 400; 400].
Proof.
  intros i s.
  assert (Hco : colocated int_key (characters s) i (Py.PInt 1) 1 (sample_character idle))
    by (apply sample_colocated; reflexivity).
  assert (Hvalid : Forall (valid_attempt int_key (characters s) i)
                          [sample_attempt; sample_attempt; sample_attempt]).
  { repeat constructor; exists 1%positive, (sample_character idle); exact Hco. }
  rewrite (interact_up_to_limit sample_isoformat int_key
             [sample_attempt; sample_attempt; sample_attempt] s 1 i sample_game
             eq_refl eq_refl eq_refl Hvalid).
  reflexivity.
Defined.

Lemma interactable_history_in_step_witness :
  let i := sample_interactable 0 None in
  let s := sample_store idle i in
  exists i',
    interactables
      (snd (api_run sample_isoformat int_key
              [(5, Core (Interact no_interactable_query 1 (Py.PInt 1)));
               (6, Core (Move no_character_query 1 (Some 0) (Some 0)))] s))
    !! 1%positive = Some i'
    /\ evolved i i'.
Proof.
  intros i s.
  exact (interactable_history_in_step sample_isoformat int_key _ s 1 i eq_refl).
Defined.

Lemma activation_last_wins_witness :
  let icontains (text part : string) := true in
  let items : gmap positive ItemViewSet.Item :=
    {[ 1%positive := sample_catalogue_item false ]} in
  fst (ItemViewSet.activate icontains ItemViewSet.no_query 1 5 items)
  = Ok200 (1%positive, ItemViewSet.set_active (sample_catalogue_item false) true 5).
Proof.
  intros icontains items.
  exact (proj1 (activation_last_wins icontains ItemViewSet.no_query 1
                  (sample_catalogue_item false) 5 6 items eq_refl)).
Defined.
